(** * The HubSpot OAuth relay worker (src/index.ts)

    A shallow embedding of [handleRequest] and of the worker's [fetch] entry
    point, with the key-value store, the provider's token endpoint and the
    random-id generator made explicit in a [World] that every request threads
    through.  An [await] of the source is a sequential step of the monad [M]:
    it either returns a value or throws, and it records what it did in the
    world's [trace]. *)

From Stdlib Require Import String Ascii List Arith Lia.
From stdpp Require Import base option gmap strings list fin_maps.

(** ** JavaScript values the handler touches *)

(** What a [throw] (or a rejected promise) carries: an instance of [Error]
    with its [message], or any other value. *)
Inductive Thrown : Type :=
| ErrorInstance (message : string)
| NotAnError.

(** The outcome of running a piece of the handler. *)
Inductive Completion (A : Type) : Type :=
| Return (a : A)
| Throw (e : Thrown).
Arguments Return {A} a.
Arguments Throw {A} e.

(** The parsed request: [request.method], [requestUrl.pathname] and
    [requestUrl.searchParams] (in the order of the query string). *)
Record Request : Type := {
  method : string;
  pathname : string;
  searchParams : list (string * string)
}.

(** A [Response]: [new Response(body, { status, headers })]; the status is
    200 when the source gives none and the body is [None] for [null].  With
    the literal statuses of the source (200, 400, 404, 500) the constructor
    always succeeds; where the source passes on the status of a response it
    has fetched (index.ts lines 79 and 169) the constructor may throw, see
    [new_Response]. *)
Record Response : Type := {
  status : nat;
  body : option string;
  headers : list (string * string)
}.

(** The environment bindings of the worker other than the store. *)
Record Env : Type := {
  CLIENT_ID : string;
  CLIENT_SECRET : string;
  PLUGIN_URI : string;
  REDIRECT_URI : string;
  AUTHORIZE_ENDPOINT : string;
  TOKEN_ENDPOINT : string;
  SCOPE : string
}.

(** The request the worker sends to the provider with the global [fetch]. *)
Record FetchInit : Type := {
  fetch_url : string;
  fetch_method : string;
  fetch_headers : list (string * string);
  fetch_body : string
}.

(** What the provider answers: [status], [statusText] and the body text that
    [json()] parses. *)
Record Upstream : Type := {
  up_status : nat;
  up_statusText : string;
  up_body : string
}.

(** An entry of the key-value store: the value and the instant at which the
    store drops it (the instant of the [put] plus its [expirationTtl]). *)
Record KvEntry : Type := {
  entry_value : string;
  entry_expires : nat
}.

(** The awaited operations, as they are attempted. *)
Inductive Event : Type :=
| EvKvPut (key value : string) (expirationTtl : nat)
| EvKvGet (key : string)
| EvKvDelete (key : string)
| EvFetch (init : FetchInit).

(** Everything outside the handler.  [kvFault] and [network] say how the
    store and the provider behave (a store operation may throw, a fetch may
    throw); [idSource] is the sequence of identifiers [generateRandomId]
    hands out and [idsDrawn] how many were taken so far. *)
Record World : Type := {
  kv : gmap string KvEntry;
  clock : nat;
  kvFault : Event -> option Thrown;
  network : FetchInit -> Completion Upstream;
  idSource : nat -> string;
  idsDrawn : nat;
  trace : list Event
}.

Definition record (ev : Event) (w : World) : World :=
  {| kv := kv w; clock := clock w; kvFault := kvFault w; network := network w;
     idSource := idSource w; idsDrawn := idsDrawn w;
     trace := trace w ++ [ev] |}.

Definition set_kv (m : gmap string KvEntry) (w : World) : World :=
  {| kv := m; clock := clock w; kvFault := kvFault w; network := network w;
     idSource := idSource w; idsDrawn := idsDrawn w; trace := trace w |}.

Definition draw (w : World) : World :=
  {| kv := kv w; clock := clock w; kvFault := kvFault w; network := network w;
     idSource := idSource w; idsDrawn := S (idsDrawn w); trace := trace w |}.

(** Time passing between two requests. *)
Definition elapse (seconds : nat) (w : World) : World :=
  {| kv := kv w; clock := clock w + seconds; kvFault := kvFault w;
     network := network w; idSource := idSource w; idsDrawn := idsDrawn w;
     trace := trace w |}.

(** What a [get] sees at the world's instant: an entry that has not expired. *)
Definition live (w : World) (key : string) : option string :=
  match kv w !! key with
  | Some en => if clock w <? entry_expires en then Some (entry_value en) else None
  | None => None
  end.

(** ** The monad of the handler *)

Definition M (A : Type) : Type := World -> Completion A * World.

Definition ret {A} (a : A) : M A := fun w => (Return a, w).

Definition bind {A B} (m : M A) (k : A -> M B) : M B :=
  fun w =>
    match m w with
    | (Return a, w') => k a w'
    | (Throw e, w') => (Throw e, w')
    end.

Definition lift {A} (c : Completion A) : M A := fun w => (c, w).

Declare Scope worker_scope.
Delimit Scope worker_scope with worker.
Notation "x <- m ;; k" := (bind m (fun x => k))
  (at level 100, m at next level, right associativity) : worker_scope.
Notation "m ;;; k" := (bind m (fun _ => k))
  (at level 100, right associativity) : worker_scope.
Local Open Scope worker_scope.

(** ** The store, the provider and the imported helpers *)

(** [env.hubspotOAuthStore.get(key)] *)
Definition kv_get (key : string) : M (option string) :=
  fun w =>
    match kvFault w (EvKvGet key) with
    | Some e => (Throw e, record (EvKvGet key) w)
    | None => (Return (live w key), record (EvKvGet key) w)
    end.

(** [env.hubspotOAuthStore.put(key, value, { expirationTtl })] *)
Definition kv_put (key value : string) (expirationTtl : nat) : M unit :=
  fun w =>
    match kvFault w (EvKvPut key value expirationTtl) with
    | Some e => (Throw e, record (EvKvPut key value expirationTtl) w)
    | None =>
        (Return tt,
         record (EvKvPut key value expirationTtl)
           (set_kv (<[key := {| entry_value := value;
                                entry_expires := clock w + expirationTtl |}]> (kv w)) w))
    end.

(** [env.hubspotOAuthStore.delete(key)] *)
Definition kv_delete (key : string) : M unit :=
  fun w =>
    match kvFault w (EvKvDelete key) with
    | Some e => (Throw e, record (EvKvDelete key) w)
    | None => (Return tt, record (EvKvDelete key) (set_kv (delete key (kv w)) w))
    end.

(** The global [fetch(url, init)] against the provider. *)
Definition net_fetch (init : FetchInit) : M Upstream :=
  fun w => (network w init, record (EvFetch init) w).

(** [generateRandomId()], imported from ./generateRandomId and kept
    abstract: a call hands out the next identifier of the world's
    [idSource]. *)
Definition generateRandomId : M string :=
  fun w => (Return (idSource w (idsDrawn w)), draw w).

(** The built-ins of the runtime the handler calls and whose results it
    treats as opaque: JSON, [URL] and [URLSearchParams]. *)
Class Platform : Type := {
  JsValue : Type;
  js_string : string -> JsValue;
  js_object : list (string * JsValue) -> JsValue;
  JSON_stringify : JsValue -> string;
  (** [response.json()] on a body text: the parsed value, or a throw *)
  Response_json : string -> Completion JsValue;
  (** [new URLSearchParams(entries).toString()] *)
  URLSearchParams_toString : list (string * string) -> string;
  Url : Type;
  (** [new URL(href)], which throws on an invalid URL *)
  URL_new : string -> Completion Url;
  (** [url.search = query] *)
  URL_set_search : Url -> string -> Url;
  URL_toString : Url -> string;
  (** the message of the error [new Response] throws for a status it
      refuses *)
  Response_rejection : nat -> string
}.

(** The statuses that admit no body (Fetch standard, null body status). *)
Definition null_body_status (status : nat) : bool :=
  (status =? 101) || (status =? 103) || (status =? 204) || (status =? 205)
  || (status =? 304).

(** Whether [new Response(body, { status })] builds a response: the status
    must be in the range 200 to 599 (a RangeError otherwise) and, when the
    body is not [null], must admit a body (a TypeError otherwise). *)
Definition Response_accepts (status : nat) (body : option string) : bool :=
  (200 <=? status) && (status <=? 599)
  && negb (bool_decide (is_Some body) && null_body_status status).

(** [new Response(body, { status, headers })] for a status that is not a
    literal of the source. *)
Definition new_Response `{Platform}
    (body : option string) (status : nat) (headers : list (string * string))
  : Completion Response :=
  if Response_accepts status body then
    Return {| status := status; body := body; headers := headers |}
  else Throw (ErrorInstance (Response_rejection status)).

(** [searchParams.get(name)]: the first value of that name, or [null]. *)
Fixpoint searchParams_get (name : string) (params : list (string * string))
  : option string :=
  match params with
  | [] => None
  | (k, v) :: rest =>
      if String.eqb k name then Some v else searchParams_get name rest
  end.

(** The test [!x] on a [string | null] is true for [null] and for the empty
    string; [truthy x] is the string the code goes on with when [!x] is
    false. *)
Definition truthy (x : option string) : option string :=
  match x with
  | Some s => if String.eqb s "" then None else Some s
  | None => None
  end.

(** [response.headers.get(name)] on the headers the handler has set. *)
Fixpoint header (name : string) (hs : list (string * string)) : option string :=
  match hs with
  | [] => None
  | (k, v) :: rest => if String.eqb k name then Some v else header name rest
  end.

Definition cors (env : Env) : string * string :=
  ("Access-Control-Allow-Origin", PLUGIN_URI env).

Definition internal_error_prefix : string := "ðŸ˜” Internal error: ".
Definition health_text : string := "âœ… OAuth Worker is up and running!".
Definition success_text : string :=
  "Authentication successful! You can close this window and return to Framer.".

Section Worker.

Context `{Platform}.

(** [getHTMLTemplate], imported from ./getHTMLTemplate and kept abstract: any
    function from the message to the page. *)
Variable getHTMLTemplate : string -> string.

(** The form the worker posts to the token endpoint. *)
Definition exchange (env : Env) (proof : list (string * string)) : FetchInit :=
  {| fetch_url := TOKEN_ENDPOINT env;
     fetch_method := "POST";
     fetch_headers := [("Content-Type", "application/x-www-form-urlencoded")];
     fetch_body := URLSearchParams_toString proof |}.

(** index.ts lines 10-40: POST /auth/authorize *)
Definition authorize (env : Env) : M Response :=
  readKey <- generateRandomId;;
  writeKey <- generateRandomId;;
  let authorizeParams :=
    [("client_id", CLIENT_ID env); ("redirect_uri", REDIRECT_URI env);
     ("scope", SCOPE env); ("state", writeKey)] in
  authorizeUrl <- lift (URL_new (AUTHORIZE_ENDPOINT env));;
  let authorizeUrl :=
    URL_set_search authorizeUrl (URLSearchParams_toString authorizeParams) in
  kv_put ("readKey:" +:+ writeKey) readKey 60;;;
  let response :=
    JSON_stringify
      (js_object [("url", js_string (URL_toString authorizeUrl));
                  ("readKey", js_string readKey)]) in
  ret {| status := 200; body := Some response;
         headers := [("Content-Type", "application/json"); cors env] |}.

(** index.ts lines 47-103: GET /auth/redirect *)
Definition redirect (request : Request) (env : Env) : M Response :=
  let authorizationCode := searchParams_get "code" (searchParams request) in
  let writeKey := searchParams_get "state" (searchParams request) in
  match truthy authorizationCode with
  | None =>
      ret {| status := 400; body := Some "Missing authorization code URL param";
             headers := [] |}
  | Some authorizationCode =>
  match truthy writeKey with
  | None =>
      ret {| status := 400; body := Some "Missing state URL param";
             headers := [] |}
  | Some writeKey =>
      let exchangeProof :=
        [("grant_type", "authorization_code"); ("client_id", CLIENT_ID env);
         ("client_secret", CLIENT_SECRET env);
         ("redirect_uri", REDIRECT_URI env); ("code", authorizationCode)] in
      tokenResponse <- net_fetch (exchange env exchangeProof);;
      if negb (up_status tokenResponse =? 200) then
        lift (new_Response (Some (up_statusText tokenResponse))
                (up_status tokenResponse) [])
      else
        readKey <- kv_get ("readKey:" +:+ writeKey);;
        match truthy readKey with
        | None =>
            ret {| status := 400; body := Some "No read key found in storage";
                   headers := [] |}
        | Some readKey =>
            tokens <- lift (Response_json (up_body tokenResponse));;
            kv_put ("tokens:" +:+ readKey) (JSON_stringify tokens) 300;;;
            ret {| status := 200; body := Some (getHTMLTemplate success_text);
                   headers := [("Content-Type", "text/html")] |}
        end
  end
  end.

(** index.ts lines 107-136: POST /auth/poll *)
Definition poll (request : Request) (env : Env) : M Response :=
  let readKey := searchParams_get "readKey" (searchParams request) in
  match truthy readKey with
  | None =>
      ret {| status := 400; body := Some "Missing read key URL param";
             headers := [cors env] |}
  | Some readKey =>
      tokens <- kv_get ("tokens:" +:+ readKey);;
      match truthy tokens with
      | None => ret {| status := 404; body := None; headers := [cors env] |}
      | Some tokens =>
          kv_delete ("tokens:" +:+ readKey);;;
          ret {| status := 200; body := Some tokens;
                 headers := [("Content-Type", "application/json"); cors env] |}
      end
  end.

(** index.ts lines 140-183: POST /auth/refresh *)
Definition refresh (request : Request) (env : Env) : M Response :=
  let refreshToken := searchParams_get "code" (searchParams request) in
  match truthy refreshToken with
  | None =>
      ret {| status := 400; body := Some "Missing refresh token URL param";
             headers := [cors env] |}
  | Some refreshToken =>
      let exchangeProof :=
        [("grant_type", "refresh_token"); ("client_id", CLIENT_ID env);
         ("client_secret", CLIENT_SECRET env);
         ("redirect_uri", REDIRECT_URI env); ("refresh_token", refreshToken)] in
      refreshResponse <- net_fetch (exchange env exchangeProof);;
      if negb (up_status refreshResponse =? 200) then
        lift (new_Response (Some (up_statusText refreshResponse))
                (up_status refreshResponse) [cors env])
      else
        tokens <- lift (Response_json (up_body refreshResponse));;
        ret {| status := 200; body := Some (JSON_stringify tokens);
               headers := [("Content-Type", "application/json"); cors env] |}
  end.

(** index.ts lines 4-196 *)
Definition handleRequest (request : Request) (env : Env) : M Response :=
  if String.eqb (method request) "POST"
     && String.prefix "/auth/authorize" (pathname request) then
    authorize env
  else if String.eqb (method request) "GET"
          && String.prefix "/auth/redirect" (pathname request) then
    redirect request env
  else if String.eqb (method request) "POST"
          && String.prefix "/auth/poll" (pathname request) then
    poll request env
  else if String.eqb (method request) "POST"
          && String.prefix "/auth/refresh" (pathname request) then
    refresh request env
  else if String.eqb (method request) "GET"
          && String.eqb (pathname request) "/" then
    ret {| status := 200; body := Some health_text; headers := [] |}
  else
    ret {| status := 404; body := Some "Page not found";
           headers := [cors env] |}.

(** index.ts lines 199-210: the [catch] of the entry point. *)
Definition internal_error (error : Thrown) (env : Env) : Response :=
  let message :=
    match error with
    | ErrorInstance message => message
    | NotAnError => "Unknown"
    end in
  {| status := 500; body := Some (internal_error_prefix +:+ message);
     headers := [cors env] |}.

Definition fetch (request : Request) (env : Env) : M Response :=
  fun w =>
    match handleRequest request env w with
    | (Return response, w') => (Return response, w')
    | (Throw error, w') => (Return (internal_error error env), w')
    end.

End Worker.

(** ** A reference platform and sample worlds

    A small runtime in which the handler can be run.  A JSON value is kept as
    its canonical text, which [JSON.stringify] gives back; [json()] takes the
    texts of objects in that form and rejects the rest; a form is encoded as
    application/x-www-form-urlencoded; a URL is its base and its query.  The
    sample values hold no character that JSON escapes. *)

Definition double_quote : ascii := ascii_of_nat 34.

Definition quoted (s : string) : string :=
  String double_quote (s +:+ String double_quote "").

Fixpoint joined (sep : string) (parts : list string) : string :=
  match parts with
  | [] => ""
  | [p] => p
  | p :: rest => p +:+ sep +:+ joined sep rest
  end.

Fixpoint last_char (s : string) : option ascii :=
  match s with
  | EmptyString => None
  | String c EmptyString => Some c
  | String _ rest => last_char rest
  end.

(** An opening brace and a quoted name at the start, a closing brace at the
    end. *)
Definition looks_like_object (text : string) : bool :=
  String.prefix (String "{" (String double_quote "")) text
  && bool_decide (last_char text = Some "}"%char).

Definition hex_digit (n : nat) : ascii :=
  if n <? 10 then ascii_of_nat (48 + n) else ascii_of_nat (55 + n).

(** The bytes the form encoding leaves as they are: letters, digits and the
    four characters * - . _ *)
Definition form_plain (n : nat) : bool :=
  ((48 <=? n) && (n <=? 57)) || ((65 <=? n) && (n <=? 90))
  || ((97 <=? n) && (n <=? 122))
  || (n =? 42) || (n =? 45) || (n =? 46) || (n =? 95).

Definition form_byte (c : ascii) : string :=
  let n := nat_of_ascii c in
  if n =? 32 then "+"
  else if form_plain n then String c ""
  else String "%" (String (hex_digit (n / 16)) (String (hex_digit (n mod 16)) "")).

Fixpoint form_encode (s : string) : string :=
  match s with
  | EmptyString => ""
  | String c rest => form_byte c +:+ form_encode rest
  end.

#[export] Instance sample_platform : Platform := {|
  JsValue := string;
  js_string := quoted;
  js_object := fun fields =>
    "{" +:+ joined "," (map (fun kv => quoted (fst kv) +:+ ":" +:+ snd kv) fields)
        +:+ "}";
  JSON_stringify := fun v => v;
  Response_json := fun text =>
    if looks_like_object text then Return text
    else Throw (ErrorInstance "Unexpected token in JSON");
  URLSearchParams_toString := fun entries =>
    joined "&"
      (map (fun kv => form_encode (fst kv) +:+ "=" +:+ form_encode (snd kv))
         entries);
  Url := string * string;
  URL_new := fun href =>
    if String.prefix "https://" href then Return (href, "")
    else Throw (ErrorInstance "Invalid URL");
  URL_set_search := fun u query => (fst u, query);
  URL_toString := fun u =>
    if String.eqb (snd u) "" then fst u else fst u +:+ "?" +:+ snd u;
  Response_rejection := fun _ => "Invalid response status code"
|}.

(** The bundles of the samples, as JSON text. *)
Definition sample_bundle : string :=
  "{" +:+ quoted "access_token" +:+ ":" +:+ quoted "tok" +:+ "}".

Definition sample_bundle2 : string :=
  "{" +:+ quoted "access_token" +:+ ":" +:+ quoted "tok2" +:+ "}".

Definition sample_template (text : string) : string :=
  "<html><body>" +:+ text +:+ "</body></html>".

Definition sample_env : Env :=
  {| CLIENT_ID := "cid"; CLIENT_SECRET := "s3cret";
     PLUGIN_URI := "https://plugin.example";
     REDIRECT_URI := "https://worker.example/auth/redirect";
     AUTHORIZE_ENDPOINT := "https://provider.example/oauth/authorize";
     TOKEN_ENDPOINT := "https://provider.example/oauth/v1/token";
     SCOPE := "oauth crm.objects.contacts.read" |}.

Definition sample_ids (n : nat) : string :=
  match n with
  | 0 => "R1"
  | 1 => "W1"
  | 2 => "R2"
  | _ => "W2"
  end.

(** A world whose store holds [entries], whose provider answers every fetch
    with [answer] and whose store never fails. *)
Definition sample_world (entries : gmap string KvEntry)
    (answer : Completion Upstream) : World :=
  {| kv := entries; clock := 1000; kvFault := fun _ => None;
     network := fun _ => answer; idSource := sample_ids; idsDrawn := 0;
     trace := [] |}.

Definition granted : Completion Upstream :=
  Return {| up_status := 200; up_statusText := "OK";
            up_body := sample_bundle |}.

Definition refused : Completion Upstream :=
  Return {| up_status := 401; up_statusText := "Unauthorized";
            up_body := "invalid_grant" |}.

Definition no_content : Completion Upstream :=
  Return {| up_status := 204; up_statusText := "No Content"; up_body := "" |}.

Definition unreachable : Completion Upstream :=
  Throw (ErrorInstance "Network connection lost.").

Definition ticket_W1 : gmap string KvEntry :=
  {[ "readKey:W1" := {| entry_value := "R1"; entry_expires := 1060 |} ]}.

Definition bundle_R1 : gmap string KvEntry :=
  {[ "tokens:R1" := {| entry_value := sample_bundle;
                       entry_expires := 1300 |} ]}.

Definition GET (path : string) (query : list (string * string)) : Request :=
  {| method := "GET"; pathname := path; searchParams := query |}.

Definition POST (path : string) (query : list (string * string)) : Request :=
  {| method := "POST"; pathname := path; searchParams := query |}.

(** The events a run has added to the trace it started from. *)
Definition is_fetch (ev : Event) : bool :=
  match ev with
  | EvFetch _ => true
  | _ => false
  end.

Definition is_store (ev : Event) : bool := negb (is_fetch ev).

(** The route tests of [handleRequest]. *)
Definition routed (verb path_prefix : string) (request : Request) : bool :=
  String.eqb (method request) verb
  && String.prefix path_prefix (pathname request).

Definition is_health (request : Request) : bool :=
  String.eqb (method request) "GET" && String.eqb (pathname request) "/".

(** A required query parameter is missing when [!x] holds of its value. *)
Definition missing (name : string) (request : Request) : Prop :=
  truthy (searchParams_get name (searchParams request)) = None.

Definition allow_origin (response : Response) : option string :=
  header "Access-Control-Allow-Origin" (headers response).

(** A query parameter is given when the code goes on with its value. *)
Definition given (name : string) (request : Request) (value : string) : Prop :=
  truthy (searchParams_get name (searchParams request)) = Some value.

(** The provider answered the fetch [init] with status 200. *)
Definition answered_200 (w : World) (init : FetchInit) : bool :=
  match network w init with
  | Return up => up_status up =? 200
  | Throw _ => false
  end.

(** The proof of grant the callback posts for [code], and the one the refresh
    posts for [token] (index.ts lines 62-68 and 152-158). *)
Definition code_proof (env : Env) (code : string) : list (string * string) :=
  [("grant_type", "authorization_code"); ("client_id", CLIENT_ID env);
   ("client_secret", CLIENT_SECRET env); ("redirect_uri", REDIRECT_URI env);
   ("code", code)].

Definition refresh_proof (env : Env) (token : string) : list (string * string) :=
  [("grant_type", "refresh_token"); ("client_id", CLIENT_ID env);
   ("client_secret", CLIENT_SECRET env); ("redirect_uri", REDIRECT_URI env);
   ("refresh_token", token)].

(** The two key spaces of the store (index.ts lines 26, 84, 95, 118, 129). *)
Definition in_tickets (key : string) : bool := String.prefix "readKey:" key.
Definition in_bundles (key : string) : bool := String.prefix "tokens:" key.

(** The awaited operations the source can issue for [env]: a put of a ticket
    for 60 seconds or of a bundle for 300, a get in either key space, a delete
    of a bundle, a POST of a form to TOKEN_ENDPOINT. *)
Definition expected_event (env : Env) (ev : Event) : bool :=
  match ev with
  | EvKvPut key _ ttl =>
      (in_tickets key && (ttl =? 60)) || (in_bundles key && (ttl =? 300))
  | EvKvGet key => in_tickets key || in_bundles key
  | EvKvDelete key => in_bundles key
  | EvFetch init =>
      String.eqb (fetch_url init) (TOKEN_ENDPOINT env)
      && String.eqb (fetch_method init) "POST"
      && String.eqb
           (default "" (header "Content-Type" (fetch_headers init)))
           "application/x-www-form-urlencoded"
  end.



(** A store that answers every operation. *)
Definition store_up (w : World) : Prop := forall ev, kvFault w ev = None.

(** A world in which the store refuses the delete of [key] with [e]; a world
    in which AUTHORIZE_ENDPOINT is no URL is had from a bad [Env]. *)
Definition failing_delete (key : string) (e : Thrown) (w : World) : World :=
  {| kv := kv w; clock := clock w;
     kvFault := fun ev =>
       match ev with
       | EvKvDelete k => if String.eqb k key then Some e else None
       | _ => None
       end;
     network := network w; idSource := idSource w; idsDrawn := idsDrawn w;
     trace := trace w |}.

Definition unparsable : Completion Upstream :=
  Return {| up_status := 200; up_statusText := "OK"; up_body := "<html>" |}.

Definition renewed : Completion Upstream :=
  Return {| up_status := 200; up_statusText := "OK";
            up_body := sample_bundle2 |}.

Definition bad_endpoint_env : Env :=
  {| CLIENT_ID := "cid"; CLIENT_SECRET := "s3cret";
     PLUGIN_URI := "https://plugin.example";
     REDIRECT_URI := "https://worker.example/auth/redirect";
     AUTHORIZE_ENDPOINT := "provider.example/oauth/authorize";
     TOKEN_ENDPOINT := "https://provider.example/oauth/v1/token";
     SCOPE := "oauth" |}.

(** A provider that grants the code abc one bundle and every other proof
    another. *)
Definition provider_by_code (init : FetchInit) : Completion Upstream :=
  if String.eqb (fetch_body init)
       (URLSearchParams_toString (code_proof sample_env "abc"))
  then granted else renewed.

Definition sample_world_by_code (entries : gmap string KvEntry) : World :=
  {| kv := entries; clock := 1000; kvFault := fun _ => None;
     network := provider_by_code; idSource := sample_ids; idsDrawn := 0;
     trace := [] |}.

(** ** Strings and routes *)

Lemma prefix_append (p s : string) : String.prefix p (p +:+ s) = true.
Proof.
  induction p as [|c p IH]; simpl.
  - destruct s; reflexivity.
  - destruct (ascii_dec c c); [exact IH | congruence].
Qed.

Lemma prefix_split (p s : string) :
  String.prefix p s = true -> exists rest, s = p +:+ rest.
Proof.
  revert s; induction p as [|c p IH]; intros s Hp.
  - exists s; reflexivity.
  - destruct s as [|d s]; simpl in Hp; [discriminate|].
    destruct (ascii_dec c d) as [->|]; [|discriminate].
    destruct (IH _ Hp) as [rest ->]; exists rest; reflexivity.
Qed.

Lemma routed_spec (verb p : string) (request : Request) :
  routed verb p request = true <->
  method request = verb /\ exists rest, pathname request = p +:+ rest.
Proof.
  unfold routed; rewrite andb_true_iff, String.eqb_eq; split.
  - intros [Hm Hp]; split; [exact Hm | exact (prefix_split _ _ Hp)].
  - intros [Hm [rest Hp]]; split; [exact Hm|].
    rewrite Hp; apply prefix_append.
Qed.

Section Properties.

Context `{Platform}.
Variable getHTMLTemplate : string -> string.

Lemma route_authorize (request : Request) (env : Env) :
  routed "POST" "/auth/authorize" request = true ->
  handleRequest getHTMLTemplate request env = authorize env.
Proof.
  unfold routed, handleRequest; intros ->; reflexivity.
Qed.

Lemma route_redirect (request : Request) (env : Env) :
  routed "GET" "/auth/redirect" request = true ->
  handleRequest getHTMLTemplate request env = redirect getHTMLTemplate request env.
Proof.
  unfold routed, handleRequest; intros Hr.
  apply andb_true_iff in Hr as [Hm Hp]; rewrite Hp.
  apply String.eqb_eq in Hm; rewrite Hm; reflexivity.
Qed.

Lemma route_poll (request : Request) (env : Env) :
  routed "POST" "/auth/poll" request = true ->
  handleRequest getHTMLTemplate request env = poll request env.
Proof.
  unfold routed, handleRequest; intros Hr.
  apply andb_true_iff in Hr as [Hm Hp]; rewrite Hp.
  apply String.eqb_eq in Hm; rewrite Hm.
  destruct (prefix_split _ _ Hp) as [rest ->]; reflexivity.
Qed.

Lemma route_refresh (request : Request) (env : Env) :
  routed "POST" "/auth/refresh" request = true ->
  handleRequest getHTMLTemplate request env = refresh request env.
Proof.
  unfold routed, handleRequest; intros Hr.
  apply andb_true_iff in Hr as [Hm Hp]; rewrite Hp.
  apply String.eqb_eq in Hm; rewrite Hm.
  destruct (prefix_split _ _ Hp) as [rest ->]; reflexivity.
Qed.

(** C10. Routes match by path prefix: a POST whose pathname is
    "/auth/authorize" followed by anything is handled as an initiation, and
    likewise "/auth/redirect" (GET), "/auth/poll" (POST) and "/auth/refresh"
    (POST) followed by anything; the health check alone needs the exact
    path "/": a GET of "/" followed by something that is no redirect path
    gets the 404 page. *)
Theorem routes_match_by_prefix (request : Request) (env : Env) (rest : string) :
  (method request = "POST" -> pathname request = "/auth/authorize" +:+ rest ->
   handleRequest getHTMLTemplate request env = authorize env) /\
  (method request = "GET" -> pathname request = "/auth/redirect" +:+ rest ->
   handleRequest getHTMLTemplate request env
   = redirect getHTMLTemplate request env) /\
  (method request = "POST" -> pathname request = "/auth/poll" +:+ rest ->
   handleRequest getHTMLTemplate request env = poll request env) /\
  (method request = "POST" -> pathname request = "/auth/refresh" +:+ rest ->
   handleRequest getHTMLTemplate request env = refresh request env) /\
  (method request = "GET" -> pathname request = "/" ->
   handleRequest getHTMLTemplate request env
   = ret {| status := 200; body := Some health_text; headers := [] |}) /\
  (method request = "GET" -> pathname request = "/" +:+ rest -> rest <> "" ->
   String.prefix "/auth/redirect" (pathname request) = false ->
   handleRequest getHTMLTemplate request env
   = ret {| status := 404; body := Some "Page not found";
            headers := [cors env] |}).
Proof.
  repeat split.
  - intros Hm Hp; apply route_authorize, routed_spec; eauto.
  - intros Hm Hp; apply route_redirect, routed_spec; eauto.
  - intros Hm Hp; apply route_poll, routed_spec; eauto.
  - intros Hm Hp; apply route_refresh, routed_spec; eauto.
  - intros Hm Hp; unfold handleRequest; rewrite Hm, Hp; reflexivity.
  - intros Hm Hp Hrest Hnot; unfold handleRequest; rewrite Hnot, Hm, Hp.
    destruct rest as [|c rest']; [congruence | reflexivity].
Qed.

(** C4. A missing required parameter gives a 400 response and nothing else
    happens (the world is left as it was): the callback without [code], the
    callback without [state], the poll without [readKey], the refresh
    without [code]. *)
Theorem missing_parameter_is_400 (request : Request) (env : Env) (w : World) :
  (routed "GET" "/auth/redirect" request = true -> missing "code" request ->
   handleRequest getHTMLTemplate request env w
   = (Return {| status := 400;
                body := Some "Missing authorization code URL param";
                headers := [] |}, w)) /\
  (routed "GET" "/auth/redirect" request = true ->
   ~ missing "code" request -> missing "state" request ->
   handleRequest getHTMLTemplate request env w
   = (Return {| status := 400; body := Some "Missing state URL param";
                headers := [] |}, w)) /\
  (routed "POST" "/auth/poll" request = true -> missing "readKey" request ->
   handleRequest getHTMLTemplate request env w
   = (Return {| status := 400; body := Some "Missing read key URL param";
                headers := [cors env] |}, w)) /\
  (routed "POST" "/auth/refresh" request = true -> missing "code" request ->
   handleRequest getHTMLTemplate request env w
   = (Return {| status := 400; body := Some "Missing refresh token URL param";
                headers := [cors env] |}, w)).
Proof.
  unfold missing; repeat split.
  - intros Hr Hc; rewrite (route_redirect _ _ Hr); unfold redirect.
    rewrite Hc; reflexivity.
  - intros Hr Hc Hs; rewrite (route_redirect _ _ Hr); unfold redirect.
    destruct (truthy (searchParams_get "code" _)); [|congruence].
    rewrite Hs; reflexivity.
  - intros Hr Hk; rewrite (route_poll _ _ Hr); unfold poll.
    rewrite Hk; reflexivity.
  - intros Hr Hc; rewrite (route_refresh _ _ Hr); unfold refresh.
    rewrite Hc; reflexivity.
Qed.

(** C9. The entry point always answers, and when the handler throws it
    answers 500 with the error's message (or Unknown for a thrown value
    that is no Error) after the fixed prefix, with the allow-origin header
    set to the plugin origin. *)
Theorem catch_all_boundary (request : Request) (env : Env) (w : World) :
  (exists response w',
     fetch getHTMLTemplate request env w = (Return response, w')) /\
  (forall error w',
     handleRequest getHTMLTemplate request env w = (Throw error, w') ->
     exists response,
       fetch getHTMLTemplate request env w = (Return response, w') /\
       status response = 500 /\
       body response
       = Some (internal_error_prefix +:+
               match error with
               | ErrorInstance message => message
               | NotAnError => "Unknown"
               end) /\
       allow_origin response = Some (PLUGIN_URI env)).
Proof.
  unfold fetch; split.
  - destruct (handleRequest getHTMLTemplate request env w) as [[response|e] w'];
      eauto.
  - intros error w' ->; eexists; split; [reflexivity|].
    destruct error; repeat split.
Qed.

(** What the refresh does to the world, whatever the provider answers. *)
Lemma refresh_world (request : Request) (env : Env) (w : World) :
  snd (refresh request env w) = w \/
  exists init, snd (refresh request env w) = record (EvFetch init) w.
Proof.
  unfold refresh, bind, net_fetch, lift, ret.
  destruct (truthy _) as [token|]; [right|left; reflexivity].
  eexists; destruct (network w _) as [up|e]; simpl; [|reflexivity].
  destruct (negb _); simpl; [reflexivity|].
  destruct (Response_json _); reflexivity.
Qed.

(** C8. A refresh request leaves the store as it was and attempts no store
    operation: whatever the outcome, the events it adds to the trace are
    fetches only. *)
Theorem refresh_is_stateless (request : Request) (env : Env) (w : World) :
  routed "POST" "/auth/refresh" request = true ->
  let w' := snd (handleRequest getHTMLTemplate request env w) in
  kv w' = kv w /\
  exists added, trace w' = trace w ++ added /\
                forallb is_fetch added = true /\
                filter (fun ev => is_store ev = true) added = [].
Proof.
  intros Hr; rewrite (route_refresh _ _ Hr); simpl.
  destruct (refresh_world request env w) as [->|[init ->]].
  - split; [reflexivity|]; exists []; rewrite app_nil_r; auto.
  - split; [reflexivity|]; exists [EvFetch init]; auto.
Qed.

(** C5, as the code has it. When the provider answers with a status other
    than 200 that a response with a body can be built with (a status from
    200 to 599 other than 204, 205 and 304), the callback and the refresh
    answer with that status and with the provider's status text as body (the
    provider's body is not passed on); the store is left as it was and the
    fetch is the only effect. *)
Theorem upstream_failure_passthrough
    (request : Request) (env : Env) (w : World) (up : Upstream) :
  up_status up <> 200 ->
  Response_accepts (up_status up) (Some (up_statusText up)) = true ->
  (forall code writeKey,
     routed "GET" "/auth/redirect" request = true ->
     given "code" request code -> given "state" request writeKey ->
     network w (exchange env (code_proof env code)) = Return up ->
     handleRequest getHTMLTemplate request env w
     = (Return {| status := up_status up; body := Some (up_statusText up);
                  headers := [] |},
        record (EvFetch (exchange env (code_proof env code))) w)) /\
  (forall token,
     routed "POST" "/auth/refresh" request = true ->
     given "code" request token ->
     network w (exchange env (refresh_proof env token)) = Return up ->
     handleRequest getHTMLTemplate request env w
     = (Return {| status := up_status up; body := Some (up_statusText up);
                  headers := [cors env] |},
        record (EvFetch (exchange env (refresh_proof env token))) w)) /\
  (forall init, kv (record (EvFetch init) w) = kv w).
Proof.
  intros Hs Hbuilt; apply Nat.eqb_neq in Hs; unfold given; repeat split.
  - intros code writeKey Hr Hc Hk Hn; rewrite (route_redirect _ _ Hr).
    unfold redirect, bind, net_fetch, lift, new_Response; rewrite Hc, Hk.
    unfold code_proof in Hn; rewrite Hn, Hs; simpl; rewrite Hbuilt.
    reflexivity.
  - intros token Hr Hc Hn; rewrite (route_refresh _ _ Hr).
    unfold refresh, bind, net_fetch, lift, new_Response; rewrite Hc.
    unfold refresh_proof in Hn; rewrite Hn, Hs; simpl; rewrite Hbuilt.
    reflexivity.
Qed.

Lemma truthy_live (w : World) (key value : string) :
  truthy (live w key) = Some value -> live w key = Some value.
Proof.
  destruct (live w key) as [s|]; simpl; [|discriminate].
  destruct (String.eqb s ""); congruence.
Qed.

(** Every response the handler itself returns outside the callback route and
    the health check carries the allow-origin header. *)
Lemma handler_allows_origin
    (request : Request) (env : Env) (w w' : World) (response : Response) :
  routed "GET" "/auth/redirect" request = false ->
  is_health request = false ->
  handleRequest getHTMLTemplate request env w = (Return response, w') ->
  allow_origin response = Some (PLUGIN_URI env).
Proof.
  unfold routed, is_health, handleRequest; intros -> ->.
  destruct (_ && _).
  { unfold authorize, bind, generateRandomId, lift, kv_put, ret.
    intros Hrun; repeat case_match; simplify_eq; reflexivity. }
  destruct (_ && _).
  { unfold poll, bind, kv_get, kv_delete, ret.
    intros Hrun; repeat case_match; simplify_eq; reflexivity. }
  destruct (_ && _).
  { unfold refresh, bind, net_fetch, lift, new_Response, ret.
    intros Hrun; repeat case_match; simplify_eq; reflexivity. }
  unfold ret; intros Hrun; simplify_eq; reflexivity.
Qed.

(** C7, as the code has it. Every response of the entry point to a request
    that is neither on the callback route (GET /auth/redirect...) nor the
    health check (GET /) carries Access-Control-Allow-Origin set to
    PLUGIN_URI, the 500 of the catch-all included. *)
Theorem cors_outside_callback
    (request : Request) (env : Env) (w w' : World) (response : Response) :
  routed "GET" "/auth/redirect" request = false ->
  is_health request = false ->
  fetch getHTMLTemplate request env w = (Return response, w') ->
  allow_origin response = Some (PLUGIN_URI env).
Proof.
  intros Hr Hh; unfold fetch.
  destruct (handleRequest getHTMLTemplate request env w) as [[r|e] w1] eqn:Hrun;
    intros Hf; simplify_eq.
  - eapply handler_allows_origin; eauto.
  - reflexivity.
Qed.

(** C1. A poll that answers 200 has read the bundle under tokens:{readKey}
    and deleted that entry in the same request; it returns the bundle read.
    From any later world with the same store, whatever the time, a poll for
    the same read key answers 404 with no body when the store answers, and
    no response it gives is anything else: the bundle is not returned
    twice. *)
Theorem poll_delivers_at_most_once
    (request : Request) (env : Env) (w w1 : World) (response : Response) :
  routed "POST" "/auth/poll" request = true ->
  handleRequest getHTMLTemplate request env w = (Return response, w1) ->
  status response = 200 ->
  exists readKey bundle,
    given "readKey" request readKey /\
    live w ("tokens:" +:+ readKey) = Some bundle /\
    body response = Some bundle /\
    trace w1 = trace w ++ [EvKvGet ("tokens:" +:+ readKey);
                           EvKvDelete ("tokens:" +:+ readKey)] /\
    kv w1 = delete ("tokens:" +:+ readKey) (kv w) /\
    kv w1 !! ("tokens:" +:+ readKey) = None /\
    forall again w2,
      routed "POST" "/auth/poll" again = true ->
      given "readKey" again readKey ->
      kv w2 = kv w1 ->
      (kvFault w2 (EvKvGet ("tokens:" +:+ readKey)) = None ->
       handleRequest getHTMLTemplate again env w2
       = (Return {| status := 404; body := None; headers := [cors env] |},
          record (EvKvGet ("tokens:" +:+ readKey)) w2)) /\
      (forall response2 w3,
         handleRequest getHTMLTemplate again env w2 = (Return response2, w3) ->
         status response2 = 404 /\ body response2 = None).
Proof.
  intros Hr; rewrite (route_poll _ _ Hr); unfold given.
  unfold poll at 1, bind, kv_get, kv_delete, ret.
  destruct (truthy (searchParams_get _ _)) as [readKey|] eqn:Hkey;
    [|intros; simplify_eq; discriminate].
  destruct (kvFault w (EvKvGet _)); [discriminate|].
  destruct (truthy (live w _)) as [bundle|] eqn:Hlive;
    [|intros; simplify_eq; discriminate].
  simpl; destruct (kvFault w (EvKvDelete _)); [discriminate|].
  intros Hrun _; simplify_eq.
  apply truthy_live in Hlive.
  exists readKey, bundle; simpl.
  split; [reflexivity|]. split; [exact Hlive|]. split; [reflexivity|].
  split; [rewrite <- app_assoc; reflexivity|]. split; [reflexivity|].
  split; [apply lookup_delete_eq|].
  intros again w2 Hr2 Hkey2 Hkv; rewrite (route_poll _ _ Hr2).
  assert (Hgone : live w2 ("tokens:" +:+ readKey) = None).
  { unfold live; rewrite Hkv, lookup_delete_eq; reflexivity. }
  unfold poll, bind, kv_get, ret; rewrite Hkey2, Hgone; split.
  - intros ->; reflexivity.
  - intros response2 w3.
    destruct (kvFault w2 _); simpl; intros Hrun; simplify_eq; split; reflexivity.
Qed.

(** C2, as the code has it. In the callback with [code] and [state] given,
    the token-exchange POST is the first effect. The lookup of
    readKey:{writeKey} comes after it and only when the provider answered
    200, so an absent ticket is found out after the provider was contacted;
    the write of tokens:{readKey} comes last, only after a 200 answer and a
    ticket that was found. *)
Theorem callback_effect_order
    (request : Request) (env : Env) (w : World) (code writeKey : string) :
  routed "GET" "/auth/redirect" request = true ->
  given "code" request code -> given "state" request writeKey ->
  let init := exchange env (code_proof env code) in
  let ticket := "readKey:" +:+ writeKey in
  let w' := snd (handleRequest getHTMLTemplate request env w) in
  exists after, trace w' = trace w ++ EvFetch init :: after /\
    ((after = [] /\ kv w' = kv w /\ answered_200 w init = false) \/
     (after = [EvKvGet ticket] /\ kv w' = kv w /\ answered_200 w init = true) \/
     (exists readKey up tokens,
        after = [EvKvGet ticket;
                 EvKvPut ("tokens:" +:+ readKey) (JSON_stringify tokens) 300] /\
        answered_200 w init = true /\
        network w init = Return up /\
        Response_json (up_body up) = Return tokens /\
        live w ticket = Some readKey)) /\
    (answered_200 w init = true -> kvFault w (EvKvGet ticket) = None ->
     truthy (live w ticket) = None ->
     handleRequest getHTMLTemplate request env w
     = (Return {| status := 400; body := Some "No read key found in storage";
                  headers := [] |},
        record (EvKvGet ticket) (record (EvFetch init) w))).
Proof.
  intros Hr Hc Hk; rewrite (route_redirect _ _ Hr); unfold given in *.
  unfold redirect, bind, net_fetch, kv_get, kv_put, lift, ret, answered_200.
  rewrite Hc, Hk; fold (code_proof env code); simpl.
  destruct (network w _) as [up|e]; simpl;
    [|eexists; split; [reflexivity | split; [left; auto | discriminate]]].
  destruct (up_status up =? 200); simpl;
    [|eexists; split; [reflexivity | split; [left; auto | discriminate]]].
  destruct (kvFault w (EvKvGet _)); simpl;
    [eexists; split; [rewrite <- app_assoc; reflexivity
                     | split; [right; left; auto | discriminate]]|].
  destruct (truthy (live _ _)) as [readKey|] eqn:Hlive; simpl;
    [|eexists; split; [rewrite <- app_assoc; reflexivity
                      | split; [right; left; auto | reflexivity]]].
  destruct (Response_json _) as [tokens|e] eqn:Hjson; simpl;
    [|eexists; split; [rewrite <- app_assoc; reflexivity
                      | split; [right; left; auto | discriminate]]].
  apply truthy_live in Hlive.
  destruct (kvFault w (EvKvPut _ _ _)); simpl;
    (eexists; split; [rewrite <- !app_assoc; reflexivity|]);
    (split; [|discriminate]);
    right; right; exists readKey, up, tokens; repeat split; auto.
Qed.

(** C3. Round trip. When the ticket readKey:{writeKey} holds a read key, the
    provider answers the exchange with 200 and a JSON body, and the store
    answers, the callback stores the bundle; a poll for that read key less
    than 300 seconds later returns exactly the bundle as JSON text, and the
    next poll, whenever it comes, answers 404. *)
Theorem callback_poll_round_trip
    (callback polling : Request) (env : Env) (w : World)
    (code writeKey readKey : string) (up : Upstream) (tokens : JsValue)
    (d d' : nat) :
  routed "GET" "/auth/redirect" callback = true ->
  given "code" callback code -> given "state" callback writeKey ->
  truthy (live w ("readKey:" +:+ writeKey)) = Some readKey ->
  network w (exchange env (code_proof env code)) = Return up ->
  up_status up = 200 ->
  Response_json (up_body up) = Return tokens ->
  JSON_stringify tokens <> "" ->
  (forall ev, kvFault w ev = None) ->
  routed "POST" "/auth/poll" polling = true ->
  given "readKey" polling readKey ->
  d < 300 ->
  exists w1 w2 w3,
    handleRequest getHTMLTemplate callback env w
    = (Return {| status := 200; body := Some (getHTMLTemplate success_text);
                 headers := [("Content-Type", "text/html")] |}, w1) /\
    handleRequest getHTMLTemplate polling env (elapse d w1)
    = (Return {| status := 200; body := Some (JSON_stringify tokens);
                 headers := [("Content-Type", "application/json"); cors env] |},
       w2) /\
    handleRequest getHTMLTemplate polling env (elapse d' w2)
    = (Return {| status := 404; body := None; headers := [cors env] |}, w3).
Proof.
  intros Hcb Hcode Hstate Hticket Hnet Hok Hjson Hne Hstore Hpoll Hkey Hd.
  rewrite (route_redirect _ _ Hcb), (route_poll _ _ Hpoll).
  unfold given in *.
  do 3 eexists; split; [|split].
  - unfold redirect, bind, net_fetch, kv_get, kv_put, lift, ret.
    rewrite Hcode, Hstate; fold (code_proof env code).
    rewrite Hnet, Hok; simpl; rewrite !Hstore.
    change (live (record _ w) ?k) with (live w k).
    rewrite Hticket, Hjson; simpl; rewrite Hstore; reflexivity.
  - unfold poll, bind, kv_get, kv_delete, ret; rewrite Hkey; simpl.
    rewrite !Hstore; unfold live; simpl; rewrite lookup_insert_eq; simpl.
    assert (Hlt : (clock w + d <? clock w + 300) = true)
      by (apply Nat.ltb_lt; lia).
    rewrite Hlt; simpl.
    destruct (String.eqb (JSON_stringify tokens) "") eqn:He;
      [apply String.eqb_eq in He; contradiction|].
    simpl; rewrite ?Hstore; reflexivity.
  - unfold poll, bind, kv_get, ret; rewrite Hkey; simpl.
    rewrite Hstore; unfold live; simpl; rewrite lookup_delete_eq; reflexivity.
Qed.

(** C6. Initiation. When AUTHORIZE_ENDPOINT is a URL and the store takes the
    write, the response is the JSON of the url and the read key, where the
    read key and the write key are the two identifiers drawn from the
    generator in this request and the url's query is made of client_id,
    redirect_uri, scope and state, the state being the write key; afterwards the
    store holds readKey:{writeKey} with the read key as value, visible for 60
    seconds and no longer. *)
Theorem authorize_postcondition
    (request : Request) (env : Env) (w : World) (endpoint : Url) :
  let readKey := idSource w (idsDrawn w) in
  let writeKey := idSource w (S (idsDrawn w)) in
  let url :=
    URL_toString
      (URL_set_search endpoint
         (URLSearchParams_toString
            [("client_id", CLIENT_ID env); ("redirect_uri", REDIRECT_URI env);
             ("scope", SCOPE env); ("state", writeKey)])) in
  routed "POST" "/auth/authorize" request = true ->
  URL_new (AUTHORIZE_ENDPOINT env) = Return endpoint ->
  kvFault w (EvKvPut ("readKey:" +:+ writeKey) readKey 60) = None ->
  exists w',
    handleRequest getHTMLTemplate request env w
    = (Return {| status := 200;
                 body := Some (JSON_stringify
                                 (js_object [("url", js_string url);
                                             ("readKey", js_string readKey)]));
                 headers := [("Content-Type", "application/json"); cors env] |},
       w') /\
    idsDrawn w' = idsDrawn w + 2 /\
    trace w' = trace w ++ [EvKvPut ("readKey:" +:+ writeKey) readKey 60] /\
    kv w' !! ("readKey:" +:+ writeKey)
    = Some {| entry_value := readKey; entry_expires := clock w + 60 |} /\
    (forall seconds, seconds < 60 ->
       live (elapse seconds w') ("readKey:" +:+ writeKey) = Some readKey) /\
    (forall seconds, 60 <= seconds ->
       live (elapse seconds w') ("readKey:" +:+ writeKey) = None).
Proof.
  intros readKey writeKey url Hr Hurl Hput; rewrite (route_authorize _ _ Hr).
  unfold authorize, bind, generateRandomId, lift, kv_put, ret.
  rewrite Hurl; simpl; fold readKey writeKey; rewrite Hput.
  eexists; split; [reflexivity|]; simpl.
  split; [lia|]; split; [reflexivity|].
  split; [apply lookup_insert_eq|].
  split; intros seconds Hs; unfold live; simpl; rewrite lookup_insert_eq; simpl.
  - assert (Hlt : (clock w + seconds <? clock w + 60) = true)
      by (apply Nat.ltb_lt; lia).
    rewrite Hlt; reflexivity.
  - assert (Hge : (clock w + seconds <? clock w + 60) = false)
      by (apply Nat.ltb_ge; lia).
    rewrite Hge; reflexivity.
Qed.

End Properties.

(** ** The theorems at work on the sample worlds *)

Lemma routes_match_by_prefix_witness :
  handleRequest sample_template (POST "/auth/authorizeXYZ" []) sample_env
  = authorize sample_env /\
  handleRequest sample_template (GET "/auth/redirect/extra" []) sample_env
  = redirect sample_template (GET "/auth/redirect/extra" []) sample_env /\
  handleRequest sample_template (POST "/auth/polling" []) sample_env
  = poll (POST "/auth/polling" []) sample_env /\
  handleRequest sample_template (POST "/auth/refresh/now" []) sample_env
  = refresh (POST "/auth/refresh/now" []) sample_env /\
  handleRequest sample_template (GET "/" []) sample_env
  = ret {| status := 200; body := Some health_text; headers := [] |} /\
  handleRequest sample_template (GET "/health" []) sample_env
  = ret {| status := 404; body := Some "Page not found";
           headers := [cors sample_env] |}.
Proof.
  split.
  { apply (routes_match_by_prefix sample_template
             (POST "/auth/authorizeXYZ" []) sample_env "XYZ"); reflexivity. }
  split.
  { apply (routes_match_by_prefix sample_template
             (GET "/auth/redirect/extra" []) sample_env "/extra"); reflexivity. }
  split.
  { apply (routes_match_by_prefix sample_template
             (POST "/auth/polling" []) sample_env "ing"); reflexivity. }
  split.
  { apply (routes_match_by_prefix sample_template
             (POST "/auth/refresh/now" []) sample_env "/now"); reflexivity. }
  split.
  { apply (routes_match_by_prefix sample_template
             (GET "/" []) sample_env ""); reflexivity. }
  apply (routes_match_by_prefix sample_template
           (GET "/health" []) sample_env "health");
    [reflexivity | reflexivity | discriminate | reflexivity].
Defined.

Lemma missing_parameter_is_400_witness :
  let w := sample_world ticket_W1 granted in
  handleRequest sample_template (GET "/auth/redirect" [("state", "W1")])
    sample_env w
  = (Return {| status := 400;
               body := Some "Missing authorization code URL param";
               headers := [] |}, w) /\
  handleRequest sample_template (GET "/auth/redirect" [("code", "abc")])
    sample_env w
  = (Return {| status := 400; body := Some "Missing state URL param";
               headers := [] |}, w) /\
  handleRequest sample_template (POST "/auth/poll" []) sample_env w
  = (Return {| status := 400; body := Some "Missing read key URL param";
               headers := [cors sample_env] |}, w) /\
  handleRequest sample_template (POST "/auth/refresh" [("code", "")])
    sample_env w
  = (Return {| status := 400; body := Some "Missing refresh token URL param";
               headers := [cors sample_env] |}, w).
Proof.
  intros w; split.
  { apply (missing_parameter_is_400 sample_template
             (GET "/auth/redirect" [("state", "W1")]) sample_env w);
      reflexivity. }
  split.
  { apply (missing_parameter_is_400 sample_template
             (GET "/auth/redirect" [("code", "abc")]) sample_env w);
      [reflexivity | discriminate | reflexivity]. }
  split.
  { apply (missing_parameter_is_400 sample_template
             (POST "/auth/poll" []) sample_env w); reflexivity. }
  apply (missing_parameter_is_400 sample_template
           (POST "/auth/refresh" [("code", "")]) sample_env w); reflexivity.
Defined.

Lemma catch_all_boundary_witness :
  let request := POST "/auth/refresh" [("code", "rt")] in
  let w := sample_world bundle_R1 unreachable in
  exists response,
    fetch sample_template request sample_env w
    = (Return response,
       snd (handleRequest sample_template request sample_env w)) /\
    status response = 500 /\
    body response
    = Some (internal_error_prefix +:+ "Network connection lost.") /\
    allow_origin response = Some "https://plugin.example".
Proof.
  intros request w.
  apply (proj2 (catch_all_boundary sample_template request sample_env w)
           (ErrorInstance "Network connection lost.")).
  vm_compute; reflexivity.
Defined.

Lemma refresh_is_stateless_witness :
  let request := POST "/auth/refresh" [("code", "rt")] in
  let w := sample_world bundle_R1 granted in
  let w' := snd (handleRequest sample_template request sample_env w) in
  kv w' = kv w /\
  exists added, trace w' = trace w ++ added /\
                forallb is_fetch added = true /\
                filter (fun ev => is_store ev = true) added = [].
Proof.
  intros request w.
  apply (refresh_is_stateless sample_template request sample_env w).
  reflexivity.
Defined.

Lemma poll_delivers_at_most_once_witness :
  let request := POST "/auth/poll" [("readKey", "R1")] in
  let w := sample_world bundle_R1 granted in
  let w1 := snd (handleRequest sample_template request sample_env w) in
  exists readKey bundle,
    given "readKey" request readKey /\
    live w ("tokens:" +:+ readKey) = Some bundle /\
    kv w1 !! ("tokens:" +:+ readKey) = None /\
    handleRequest sample_template request sample_env (elapse 5 w1)
    = (Return {| status := 404; body := None; headers := [cors sample_env] |},
       record (EvKvGet ("tokens:" +:+ readKey)) (elapse 5 w1)).
Proof.
  intros request w w1.
  destruct (poll_delivers_at_most_once sample_template request sample_env w w1
              {| status := 200; body := Some sample_bundle;
                 headers := [("Content-Type", "application/json");
                             cors sample_env] |})
    as (readKey & bundle & Hgiven & Hlive & _ & _ & _ & Hgone & Hnext).
  - reflexivity.
  - vm_compute; reflexivity.
  - reflexivity.
  - exists readKey, bundle; repeat split; try assumption.
    apply (Hnext request (elapse 5 w1));
      [reflexivity | exact Hgiven | reflexivity | reflexivity].
Defined.

Lemma callback_poll_round_trip_witness :
  let callback := GET "/auth/redirect" [("code", "abc"); ("state", "W1")] in
  let polling := POST "/auth/poll" [("readKey", "R1")] in
  let w := sample_world ticket_W1 granted in
  exists w1 w2 w3,
    handleRequest sample_template callback sample_env w
    = (Return {| status := 200; body := Some (sample_template success_text);
                 headers := [("Content-Type", "text/html")] |}, w1) /\
    handleRequest sample_template polling sample_env (elapse 10 w1)
    = (Return {| status := 200; body := Some sample_bundle;
                 headers := [("Content-Type", "application/json");
                             cors sample_env] |}, w2) /\
    handleRequest sample_template polling sample_env (elapse 0 w2)
    = (Return {| status := 404; body := None; headers := [cors sample_env] |},
       w3).
Proof.
  intros callback polling w.
  apply (@callback_poll_round_trip sample_platform sample_template
           callback polling sample_env w
           "abc" "W1" "R1"
           {| up_status := 200; up_statusText := "OK";
              up_body := sample_bundle |}
           sample_bundle 10 0).
  - reflexivity.
  - reflexivity.
  - reflexivity.
  - vm_compute; reflexivity.
  - reflexivity.
  - reflexivity.
  - reflexivity.
  - discriminate.
  - intros ev; reflexivity.
  - reflexivity.
  - reflexivity.
  - lia.
Defined.

Lemma authorize_postcondition_witness :
  let request := POST "/auth/authorize" [] in
  let w := sample_world ∅ granted in
  let url :=
    URL_toString
      (URL_set_search ("https://provider.example/oauth/authorize", "")
         (URLSearchParams_toString
            [("client_id", "cid");
             ("redirect_uri", "https://worker.example/auth/redirect");
             ("scope", "oauth crm.objects.contacts.read"); ("state", "W1")])) in
  exists w',
    handleRequest sample_template request sample_env w
    = (Return {| status := 200;
                 body := Some (JSON_stringify
                                 (js_object [("url", js_string url);
                                             ("readKey", js_string "R1")]));
                 headers := [("Content-Type", "application/json");
                             cors sample_env] |}, w') /\
    idsDrawn w' = 2 /\
    trace w' = [EvKvPut "readKey:W1" "R1" 60] /\
    kv w' !! "readKey:W1"
    = Some {| entry_value := "R1"; entry_expires := 1060 |} /\
    (forall seconds, seconds < 60 ->
       live (elapse seconds w') "readKey:W1" = Some "R1") /\
    (forall seconds, 60 <= seconds ->
       live (elapse seconds w') "readKey:W1" = None).
Proof.
  intros request w url.
  apply (@authorize_postcondition sample_platform sample_template request
           sample_env w
           ("https://provider.example/oauth/authorize", "")); reflexivity.
Defined.

Lemma callback_effect_order_witness :
  let request := GET "/auth/redirect" [("code", "abc"); ("state", "W1")] in
  let w := sample_world ticket_W1 granted in
  let init := exchange sample_env (code_proof sample_env "abc") in
  let w' := snd (handleRequest sample_template request sample_env w) in
  exists after, trace w' = trace w ++ EvFetch init :: after /\
    ((after = [] /\ kv w' = kv w /\ answered_200 w init = false) \/
     (after = [EvKvGet "readKey:W1"] /\ kv w' = kv w /\
      answered_200 w init = true) \/
     (exists readKey up tokens,
        after = [EvKvGet "readKey:W1";
                 EvKvPut ("tokens:" +:+ readKey) (JSON_stringify tokens) 300] /\
        answered_200 w init = true /\
        network w init = Return up /\
        Response_json (up_body up) = Return tokens /\
        live w "readKey:W1" = Some readKey)) /\
    (answered_200 w init = true -> kvFault w (EvKvGet "readKey:W1") = None ->
     truthy (live w "readKey:W1") = None ->
     handleRequest sample_template request sample_env w
     = (Return {| status := 400; body := Some "No read key found in storage";
                  headers := [] |},
        record (EvKvGet "readKey:W1") (record (EvFetch init) w))).
Proof.
  intros request w init w'.
  apply (callback_effect_order sample_template request sample_env w "abc" "W1");
    reflexivity.
Defined.

Lemma upstream_failure_passthrough_witness :
  let callback := GET "/auth/redirect" [("code", "abc"); ("state", "W1")] in
  let renewal := POST "/auth/refresh" [("code", "rt")] in
  let w := sample_world ticket_W1 refused in
  handleRequest sample_template callback sample_env w
  = (Return {| status := 401; body := Some "Unauthorized"; headers := [] |},
     record (EvFetch (exchange sample_env (code_proof sample_env "abc"))) w) /\
  handleRequest sample_template renewal sample_env w
  = (Return {| status := 401; body := Some "Unauthorized";
               headers := [cors sample_env] |},
     record (EvFetch (exchange sample_env (refresh_proof sample_env "rt"))) w).
Proof.
  intros callback renewal w.
  pose (up := {| up_status := 401; up_statusText := "Unauthorized";
                 up_body := "invalid_grant" |}).
  assert (Hs : up_status up <> 200) by (simpl; lia).
  assert (Hb : Response_accepts (up_status up) (Some (up_statusText up)) = true)
    by reflexivity.
  split.
  - apply (proj1 (upstream_failure_passthrough sample_template callback
                    sample_env w up Hs Hb) "abc" "W1"); reflexivity.
  - apply (proj1 (proj2 (upstream_failure_passthrough sample_template renewal
                           sample_env w up Hs Hb)) "rt"); reflexivity.
Defined.

Lemma cors_outside_callback_witness :
  allow_origin {| status := 400; body := Some "Missing read key URL param";
                  headers := [cors sample_env] |}
  = Some "https://plugin.example".
Proof.
  apply (cors_outside_callback sample_template (POST "/auth/poll" []) sample_env
           (sample_world ∅ granted) (sample_world ∅ granted)); reflexivity.
Defined.

(** ** Where the code departs from the specification *)

(** Against C2: with no ticket in the store, the callback still posts to the
    token endpoint, and it does so before it looks the ticket up. *)
Lemma callback_contacts_provider_before_lookup :
  let request := GET "/auth/redirect" [("code", "abc"); ("state", "W1")] in
  let w := sample_world ∅ granted in
  let init := exchange sample_env (code_proof sample_env "abc") in
  live w "readKey:W1" = None /\
  fst (handleRequest sample_template request sample_env w)
  = Return {| status := 400; body := Some "No read key found in storage";
              headers := [] |} /\
  trace (snd (handleRequest sample_template request sample_env w))
  = [EvFetch init; EvKvGet "readKey:W1"] /\
  ~ (live w "readKey:W1" = None ->
     forall init',
       ~ In (EvFetch init')
            (trace (snd (handleRequest sample_template request sample_env w)))).
Proof.
  intros request w init.
  split; [reflexivity|]. split; [reflexivity|]. split; [reflexivity|].
  intros Hclaim; apply (Hclaim eq_refl init); left; reflexivity.
Qed.

(** Against C5: the provider answers 401 Unauthorized with body
    invalid_grant; the callback and the refresh answer 401 with the status
    text, and the body invalid_grant is in neither response. And when the
    provider answers 204 No Content, the status is not passed on: the worker
    answers 500. *)
Lemma upstream_body_is_not_passed_on :
  let callback := GET "/auth/redirect" [("code", "abc"); ("state", "W1")] in
  let renewal := POST "/auth/refresh" [("code", "rt")] in
  let w := sample_world ticket_W1 refused in
  let w204 := sample_world ticket_W1 no_content in
  fst (handleRequest sample_template callback sample_env w)
  = Return {| status := 401; body := Some "Unauthorized"; headers := [] |} /\
  fst (handleRequest sample_template renewal sample_env w)
  = Return {| status := 401; body := Some "Unauthorized";
              headers := [cors sample_env] |} /\
  ~ (exists response,
       fst (handleRequest sample_template callback sample_env w)
       = Return response /\ body response = Some "invalid_grant") /\
  ~ (exists response,
       fst (handleRequest sample_template renewal sample_env w)
       = Return response /\ body response = Some "invalid_grant") /\
  (exists response,
     fst (fetch sample_template callback sample_env w204) = Return response /\
     status response = 500 /\ status response <> 204) /\
  (exists response,
     fst (fetch sample_template renewal sample_env w204) = Return response /\
     status response = 500 /\ status response <> 204).
Proof.
  intros callback renewal w w204.
  split; [reflexivity|]. split; [reflexivity|].
  split; [|split].
  - intros [response [Hrun Hbody]]; vm_compute in Hrun;
      inversion Hrun; subst response; discriminate Hbody.
  - intros [response [Hrun Hbody]]; vm_compute in Hrun;
      inversion Hrun; subst response; discriminate Hbody.
  - split; eexists; (split; [reflexivity|]); split;
      [reflexivity | discriminate | reflexivity | discriminate].
Qed.

(** Against C7: the callback's answer to a request without a code, which is
    no health check, is a 400 with no Access-Control-Allow-Origin header. *)
Lemma callback_reply_without_cors :
  let request := GET "/auth/redirect" [("state", "W1")] in
  let w := sample_world ticket_W1 granted in
  is_health request = false /\
  exists response w',
    fetch sample_template request sample_env w = (Return response, w') /\
    response = {| status := 400;
                  body := Some "Missing authorization code URL param";
                  headers := [] |} /\
    allow_origin response = None /\
    allow_origin response <> Some (PLUGIN_URI sample_env).
Proof.
  intros request w; split; [reflexivity|].
  eexists _, _; split; [vm_compute; reflexivity|].
  split; [reflexivity|]. split; [reflexivity | discriminate].
Qed.

(** ** Further behaviour of the handler *)

Lemma prefix_empty (s : string) : String.prefix "" s = true.
Proof. destruct s; reflexivity. Qed.

Lemma ticket_in_tickets (writeKey : string) :
  in_tickets ("readKey:" +:+ writeKey) = true.
Proof. apply prefix_append. Qed.

Lemma bundle_in_bundles (readKey : string) :
  in_bundles ("tokens:" +:+ readKey) = true.
Proof. apply prefix_append. Qed.

Lemma key_spaces_apart (writeKey readKey : string) :
  "readKey:" +:+ writeKey <> "tokens:" +:+ readKey.
Proof. discriminate. Qed.

Lemma truthy_inv (x : option string) (s : string) :
  truthy x = Some s -> x = Some s /\ s <> "".
Proof.
  destruct x as [t|]; simpl; [|discriminate].
  destruct (String.eqb t "") eqn:E; [discriminate|].
  intros [= ->]; split; [reflexivity|].
  intros ->; discriminate.
Qed.

Lemma truthy_present (s : string) : s <> "" -> truthy (Some s) = Some s.
Proof.
  intros Hs; simpl; destruct (String.eqb s "") eqn:E; [|reflexivity].
  apply String.eqb_eq in E; contradiction.
Qed.

Section Runs.

Context `{Platform}.
Variable getHTMLTemplate : string -> string.

(** The callback, when every step succeeds. *)
Lemma redirect_run
    (request : Request) (env : Env) (w : World)
    (code writeKey readKey : string) (up : Upstream) (tokens : JsValue) :
  given "code" request code -> given "state" request writeKey ->
  network w (exchange env (code_proof env code)) = Return up ->
  up_status up = 200 ->
  kvFault w (EvKvGet ("readKey:" +:+ writeKey)) = None ->
  truthy (live w ("readKey:" +:+ writeKey)) = Some readKey ->
  Response_json (up_body up) = Return tokens ->
  kvFault w (EvKvPut ("tokens:" +:+ readKey) (JSON_stringify tokens) 300) = None ->
  redirect getHTMLTemplate request env w
  = (Return {| status := 200; body := Some (getHTMLTemplate success_text);
               headers := [("Content-Type", "text/html")] |},
     record (EvKvPut ("tokens:" +:+ readKey) (JSON_stringify tokens) 300)
       (set_kv (<["tokens:" +:+ readKey :=
                   {| entry_value := JSON_stringify tokens;
                      entry_expires := clock w + 300 |}]> (kv w))
          (record (EvKvGet ("readKey:" +:+ writeKey))
             (record (EvFetch (exchange env (code_proof env code))) w)))).
Proof.
  unfold given; intros Hcode Hstate Hnet Hok Hget Hticket Hjson Hput.
  unfold redirect, bind, net_fetch, kv_get, kv_put, lift, ret.
  rewrite Hcode, Hstate; fold (code_proof env code).
  rewrite Hnet, Hok; simpl; rewrite Hget.
  change (live (record _ w) ?k) with (live w k).
  rewrite Hticket, Hjson; simpl; rewrite Hput; reflexivity.
Qed.

(** The poll that finds a bundle, and the poll that finds none. *)
Lemma poll_run_hit
    (request : Request) (env : Env) (w : World) (readKey bundle : string) :
  given "readKey" request readKey ->
  kvFault w (EvKvGet ("tokens:" +:+ readKey)) = None ->
  truthy (live w ("tokens:" +:+ readKey)) = Some bundle ->
  kvFault w (EvKvDelete ("tokens:" +:+ readKey)) = None ->
  poll request env w
  = (Return {| status := 200; body := Some bundle;
               headers := [("Content-Type", "application/json"); cors env] |},
     record (EvKvDelete ("tokens:" +:+ readKey))
       (set_kv (delete ("tokens:" +:+ readKey) (kv w))
          (record (EvKvGet ("tokens:" +:+ readKey)) w))).
Proof.
  unfold given; intros Hkey Hget Hlive Hdel.
  unfold poll, bind, kv_get, kv_delete, ret.
  rewrite Hkey, Hget, Hlive; simpl; rewrite Hdel; reflexivity.
Qed.

Lemma poll_run_miss
    (request : Request) (env : Env) (w : World) (readKey : string) :
  given "readKey" request readKey ->
  kvFault w (EvKvGet ("tokens:" +:+ readKey)) = None ->
  truthy (live w ("tokens:" +:+ readKey)) = None ->
  poll request env w
  = (Return {| status := 404; body := None; headers := [cors env] |},
     record (EvKvGet ("tokens:" +:+ readKey)) w).
Proof.
  unfold given; intros Hkey Hget Hlive.
  unfold poll, bind, kv_get, ret; rewrite Hkey, Hget, Hlive; reflexivity.
Qed.

(** The initiation, when the endpoint is a URL and the store takes the put. *)
Lemma authorize_run (env : Env) (w : World) (endpoint : Url) :
  let readKey := idSource w (idsDrawn w) in
  let writeKey := idSource w (S (idsDrawn w)) in
  URL_new (AUTHORIZE_ENDPOINT env) = Return endpoint ->
  kvFault w (EvKvPut ("readKey:" +:+ writeKey) readKey 60) = None ->
  exists response,
    authorize env w
    = (Return response,
       record (EvKvPut ("readKey:" +:+ writeKey) readKey 60)
         (set_kv (<["readKey:" +:+ writeKey :=
                     {| entry_value := readKey;
                        entry_expires := clock w + 60 |}]> (kv w))
            (draw (draw w)))) /\
    status response = 200.
Proof.
  intros readKey writeKey Hurl Hput.
  unfold authorize, bind, generateRandomId, lift, kv_put, ret.
  rewrite Hurl; simpl; fold readKey writeKey; rewrite Hput.
  eexists; split; reflexivity.
Qed.

(** X1. A refresh whose token the provider accepts (status 200, a body that
    parses) answers 200 with the parsed bundle serialised again, as JSON and
    with the allow-origin header; its one effect is the POST of the
    refresh_token form. *)
Theorem refresh_returns_bundle
    (request : Request) (env : Env) (w : World) (token : string)
    (up : Upstream) (tokens : JsValue) :
  routed "POST" "/auth/refresh" request = true ->
  given "code" request token ->
  network w (exchange env (refresh_proof env token)) = Return up ->
  up_status up = 200 ->
  Response_json (up_body up) = Return tokens ->
  handleRequest getHTMLTemplate request env w
  = (Return {| status := 200; body := Some (JSON_stringify tokens);
               headers := [("Content-Type", "application/json"); cors env] |},
     record (EvFetch (exchange env (refresh_proof env token))) w).
Proof.
  unfold given; intros Hr Hcode Hnet Hok Hjson.
  rewrite (route_refresh _ _ _ Hr).
  unfold refresh, bind, net_fetch, lift, ret.
  rewrite Hcode; fold (refresh_proof env token).
  rewrite Hnet, Hok; simpl; rewrite Hjson; reflexivity.
Qed.

(** X2. When the provider answers 200 with a body that json() rejects with
    [e], the worker answers with the 500 of the catch-all for [e]. The
    refresh has done nothing but the fetch; the callback has fetched and
    looked the ticket up, and has stored nothing. *)
Theorem unparsable_answer_is_500
    (request : Request) (env : Env) (w : World) (up : Upstream) (e : Thrown) :
  up_status up = 200 ->
  Response_json (up_body up) = Throw e ->
  (forall token,
     routed "POST" "/auth/refresh" request = true ->
     given "code" request token ->
     network w (exchange env (refresh_proof env token)) = Return up ->
     fetch getHTMLTemplate request env w
     = (Return (internal_error e env),
        record (EvFetch (exchange env (refresh_proof env token))) w)) /\
  (forall code writeKey readKey,
     routed "GET" "/auth/redirect" request = true ->
     given "code" request code -> given "state" request writeKey ->
     network w (exchange env (code_proof env code)) = Return up ->
     kvFault w (EvKvGet ("readKey:" +:+ writeKey)) = None ->
     truthy (live w ("readKey:" +:+ writeKey)) = Some readKey ->
     fetch getHTMLTemplate request env w
     = (Return (internal_error e env),
        record (EvKvGet ("readKey:" +:+ writeKey))
          (record (EvFetch (exchange env (code_proof env code))) w))) /\
  status (internal_error e env) = 500.
Proof.
  unfold given; intros Hok Hjson; split; [|split; [|reflexivity]].
  - intros token Hr Hcode Hnet; unfold fetch.
    rewrite (route_refresh _ _ _ Hr).
    unfold refresh, bind, net_fetch, lift, ret.
    rewrite Hcode; fold (refresh_proof env token).
    rewrite Hnet, Hok; simpl; rewrite Hjson; reflexivity.
  - intros code writeKey readKey Hr Hcode Hstate Hnet Hget Hticket.
    unfold fetch; rewrite (route_redirect _ _ _ Hr).
    unfold redirect, bind, net_fetch, kv_get, lift, ret.
    rewrite Hcode, Hstate; fold (code_proof env code).
    rewrite Hnet, Hok; simpl; rewrite Hget.
    change (live (record _ w) ?k) with (live w k).
    rewrite Hticket, Hjson; reflexivity.
Qed.

(** X3. When AUTHORIZE_ENDPOINT is no URL, so that new URL throws [e], the
    initiation answers with the 500 of the catch-all for [e]; two identifiers
    were drawn, and the store was neither written nor asked. *)
Theorem authorize_bad_endpoint
    (request : Request) (env : Env) (w : World) (e : Thrown) :
  routed "POST" "/auth/authorize" request = true ->
  URL_new (AUTHORIZE_ENDPOINT env) = Throw e ->
  exists w',
    fetch getHTMLTemplate request env w = (Return (internal_error e env), w') /\
    kv w' = kv w /\ trace w' = trace w /\ idsDrawn w' = idsDrawn w + 2.
Proof.
  intros Hr Hurl; unfold fetch; rewrite (route_authorize _ _ _ Hr).
  unfold authorize, bind, generateRandomId, lift.
  rewrite Hurl; simpl.
  eexists; split; [reflexivity|]; simpl; repeat split; lia.
Qed.

(** X4. A poll that reads the bundle and whose delete the store refuses with
    [e] throws [e]: the bundle is not delivered, and it stays in the store,
    so that a later poll at the same instant, once the store answers,
    delivers it. *)
Theorem poll_failed_delete_keeps_bundle
    (request : Request) (env : Env) (w : World)
    (readKey bundle : string) (e : Thrown) :
  routed "POST" "/auth/poll" request = true ->
  given "readKey" request readKey ->
  kvFault w (EvKvGet ("tokens:" +:+ readKey)) = None ->
  truthy (live w ("tokens:" +:+ readKey)) = Some bundle ->
  kvFault w (EvKvDelete ("tokens:" +:+ readKey)) = Some e ->
  exists w',
    handleRequest getHTMLTemplate request env w = (Throw e, w') /\
    fetch getHTMLTemplate request env w = (Return (internal_error e env), w') /\
    kv w' = kv w /\
    trace w' = trace w ++ [EvKvGet ("tokens:" +:+ readKey);
                           EvKvDelete ("tokens:" +:+ readKey)] /\
    forall w2, kv w2 = kv w' -> clock w2 = clock w -> store_up w2 ->
      fst (handleRequest getHTMLTemplate request env w2)
      = Return {| status := 200; body := Some bundle;
                  headers := [("Content-Type", "application/json");
                              cors env] |}.
Proof.
  intros Hr Hkey Hget Hlive Hdel; unfold fetch.
  rewrite (route_poll _ _ _ Hr).
  assert (Hrun : poll request env w
                 = (Throw e,
                    record (EvKvDelete ("tokens:" +:+ readKey))
                      (record (EvKvGet ("tokens:" +:+ readKey)) w))).
  { unfold given in Hkey; unfold poll, bind, kv_get, kv_delete, ret.
    rewrite Hkey, Hget, Hlive; simpl; rewrite Hdel; reflexivity. }
  rewrite Hrun; eexists; split; [reflexivity|]; split; [reflexivity|].
  split; [reflexivity|]; split; [simpl; rewrite <- app_assoc; reflexivity|].
  intros w2 Hkv Hclock Hup; simpl in Hkv.
  assert (Hlive2 : live w2 ("tokens:" +:+ readKey)
                   = live w ("tokens:" +:+ readKey))
    by (unfold live; rewrite Hkv, Hclock; reflexivity).
  rewrite (poll_run_hit request env w2 readKey bundle); auto.
  rewrite Hlive2; exact Hlive.
Qed.

(** X5. The verbs are enforced: a request with a method other than GET and
    POST (OPTIONS, HEAD, a lower-case post, ...) gets the 404 page whatever
    its path; so does a GET of a path that is neither a callback path nor
    "/", the POST routes included, and a POST of a path outside the three
    POST routes, the callback path and "/" included. Nothing is done. *)
Theorem verbs_are_enforced (request : Request) (env : Env) (w : World) :
  let not_found :=
    (Return {| status := 404; body := Some "Page not found";
               headers := [cors env] |}, w) in
  (method request <> "GET" -> method request <> "POST" ->
   handleRequest getHTMLTemplate request env w = not_found) /\
  (method request = "GET" ->
   String.prefix "/auth/redirect" (pathname request) = false ->
   pathname request <> "/" ->
   handleRequest getHTMLTemplate request env w = not_found) /\
  (method request = "POST" ->
   String.prefix "/auth/authorize" (pathname request) = false ->
   String.prefix "/auth/poll" (pathname request) = false ->
   String.prefix "/auth/refresh" (pathname request) = false ->
   handleRequest getHTMLTemplate request env w = not_found).
Proof.
  intros not_found; unfold handleRequest; repeat split.
  - intros Hget Hpost.
    apply String.eqb_neq in Hget, Hpost; rewrite Hget, Hpost; reflexivity.
  - intros -> -> Hroot; apply String.eqb_neq in Hroot; rewrite Hroot.
    reflexivity.
  - intros -> -> -> ->; reflexivity.
Qed.

(** X6. What a request can change in the store, whatever its outcome: an
    initiation only the ticket of the write key it draws, a callback only
    keys of the tokens: space, a poll only the bundle of the read key it is
    given; nothing else changes a key. In particular no request but an
    initiation touches a ticket. *)
Theorem store_footprint
    (request : Request) (env : Env) (w : World) (key : string) :
  let w' := snd (handleRequest getHTMLTemplate request env w) in
  kv w' !! key <> kv w !! key ->
  (routed "POST" "/auth/authorize" request = true /\
   key = "readKey:" +:+ idSource w (S (idsDrawn w))) \/
  (routed "GET" "/auth/redirect" request = true /\ in_bundles key = true) \/
  (routed "POST" "/auth/poll" request = true /\
   exists readKey, given "readKey" request readKey /\
                   key = "tokens:" +:+ readKey).
Proof.
  unfold handleRequest, routed, given; simpl.
  destruct (_ && String.prefix "/auth/authorize" _) eqn:Ha.
  { unfold authorize, bind, generateRandomId, lift, kv_put, ret.
    destruct (URL_new _); simpl; [|congruence].
    destruct (kvFault _ _); simpl; [congruence|].
    destruct (decide (key = "readKey:" +:+ idSource w (S (idsDrawn w))))
      as [->|Hne]; [left; auto|].
    rewrite lookup_insert_ne by congruence; congruence. }
  destruct (_ && String.prefix "/auth/redirect" _) eqn:Hr.
  { unfold redirect, bind, net_fetch, kv_get, kv_put, lift, ret.
    destruct (truthy (searchParams_get "code" _)); [|simpl; congruence].
    destruct (truthy (searchParams_get "state" _)); [|simpl; congruence].
    destruct (network w _) as [up|e]; simpl; [|congruence].
    destruct (negb _); simpl; [congruence|].
    destruct (kvFault w (EvKvGet _)); simpl; [congruence|].
    destruct (truthy (live _ _)) as [readKey|]; simpl; [|congruence].
    destruct (Response_json _) as [tokens|e]; simpl; [|congruence].
    destruct (kvFault w (EvKvPut _ _ _)); simpl; [congruence|].
    destruct (decide (key = "tokens:" +:+ readKey)) as [->|Hne];
      [intros _; right; left; split; [reflexivity | apply bundle_in_bundles]
      | rewrite lookup_insert_ne by congruence; congruence]. }
  destruct (_ && String.prefix "/auth/poll" _) eqn:Hp.
  { unfold poll, bind, kv_get, kv_delete, ret.
    destruct (truthy (searchParams_get _ _)) as [readKey|] eqn:Hkey;
      simpl; [|congruence].
    destruct (kvFault w (EvKvGet _)); simpl; [congruence|].
    destruct (truthy (live _ _)) as [bundle|]; simpl; [|congruence].
    destruct (kvFault w (EvKvDelete _)); simpl; [congruence|].
    destruct (decide (key = "tokens:" +:+ readKey)) as [->|Hne];
      [intros _; right; right; split; [reflexivity | eauto]
      | rewrite lookup_delete_ne by congruence; congruence]. }
  destruct (_ && String.prefix "/auth/refresh" _) eqn:Hf.
  { unfold refresh, bind, net_fetch, lift, ret.
    destruct (truthy _); [|simpl; congruence].
    destruct (network w _) as [up|e]; simpl; [|congruence].
    destruct (negb _); simpl; [congruence|].
    destruct (Response_json _); simpl; congruence. }
  destruct (_ && String.eqb (pathname request) "/"); simpl; congruence.
Qed.

Ltac expected_leaf :=
  simpl; eexists; split;
  [ first [ rewrite <- ?app_assoc; reflexivity | symmetry; apply app_nil_r ]
  | cbn [app length forallb List.filter is_fetch expected_event
         fetch_url fetch_method fetch_headers exchange];
    rewrite ?ticket_in_tickets, ?bundle_in_bundles, ?String.eqb_refl;
    simpl; repeat split; lia ].

(** X7. Whatever the request and its outcome, the handler awaits at most
    three operations, at most one of them a fetch; a fetch is a POST of a
    form to TOKEN_ENDPOINT and nothing else, and every store operation is on
    a key of the readKey: or tokens: space, with a put of 60 seconds for a
    ticket and of 300 for a bundle and deletes of bundles only. *)
Theorem effects_are_expected (request : Request) (env : Env) (w : World) :
  exists added,
    trace (snd (handleRequest getHTMLTemplate request env w))
    = trace w ++ added /\
    length added <= 3 /\
    forallb (expected_event env) added = true /\
    length (List.filter is_fetch added) <= 1.
Proof.
  unfold handleRequest.
  destruct (_ && String.prefix "/auth/authorize" _).
  { unfold authorize, bind, generateRandomId, lift, kv_put, ret.
    destruct (URL_new _); simpl; [|expected_leaf].
    destruct (kvFault _ _); expected_leaf. }
  destruct (_ && String.prefix "/auth/redirect" _).
  { unfold redirect, bind, net_fetch, kv_get, kv_put, lift, ret.
    destruct (truthy (searchParams_get "code" _)); [|expected_leaf].
    destruct (truthy (searchParams_get "state" _)); [|expected_leaf].
    destruct (network w _) as [up|e]; simpl; [|expected_leaf].
    destruct (negb _); simpl; [expected_leaf|].
    destruct (kvFault w (EvKvGet _)); simpl; [expected_leaf|].
    destruct (truthy (live _ _)) as [readKey|]; simpl; [|expected_leaf].
    destruct (Response_json _) as [tokens|e]; simpl; [|expected_leaf].
    destruct (kvFault w (EvKvPut _ _ _)); expected_leaf. }
  destruct (_ && String.prefix "/auth/poll" _).
  { unfold poll, bind, kv_get, kv_delete, ret.
    destruct (truthy (searchParams_get _ _)) as [readKey|]; [|expected_leaf].
    destruct (kvFault w (EvKvGet _)); simpl; [expected_leaf|].
    destruct (truthy (live _ _)) as [bundle|]; simpl; [|expected_leaf].
    destruct (kvFault w (EvKvDelete _)); expected_leaf. }
  destruct (_ && String.prefix "/auth/refresh" _).
  { unfold refresh, bind, net_fetch, lift, ret.
    destruct (truthy _); [|expected_leaf].
    destruct (network w _) as [up|e]; simpl; [|expected_leaf].
    destruct (negb _); simpl; [expected_leaf|].
    destruct (Response_json _); expected_leaf. }
  destruct (_ && _); expected_leaf.
Qed.


Lemma live_earlier (w : World) (seconds : nat) (key value : string) :
  live (elapse seconds w) key = Some value -> live w key = Some value.
Proof.
  unfold live; simpl; destruct (kv w !! key) as [en|]; [|discriminate].
  destruct (_ + _ <? _) eqn:Hlater; [|discriminate].
  apply Nat.ltb_lt in Hlater.
  assert (Hnow : (clock w <? entry_expires en) = true)
    by (apply Nat.ltb_lt; lia).
  rewrite Hnow; auto.
Qed.

(** X9. A bundle nobody polls for 300 seconds is gone: after a callback that
    stored it, a poll 300 seconds later or more answers 404, and deletes
    nothing. *)
Theorem bundle_expires
    (callback polling : Request) (env : Env) (w : World)
    (code writeKey readKey : string) (up : Upstream) (tokens : JsValue)
    (seconds : nat) :
  routed "GET" "/auth/redirect" callback = true ->
  given "code" callback code -> given "state" callback writeKey ->
  truthy (live w ("readKey:" +:+ writeKey)) = Some readKey ->
  network w (exchange env (code_proof env code)) = Return up ->
  up_status up = 200 ->
  Response_json (up_body up) = Return tokens ->
  store_up w ->
  routed "POST" "/auth/poll" polling = true ->
  given "readKey" polling readKey ->
  300 <= seconds ->
  exists confirmation w1,
    handleRequest getHTMLTemplate callback env w = (Return confirmation, w1) /\
    status confirmation = 200 /\
    handleRequest getHTMLTemplate polling env (elapse seconds w1)
    = (Return {| status := 404; body := None; headers := [cors env] |},
       record (EvKvGet ("tokens:" +:+ readKey)) (elapse seconds w1)).
Proof.
  intros Hcb Hcode Hstate Hticket Hnet Hok Hjson Hup Hpoll Hkey Hlate.
  rewrite (route_redirect _ _ _ Hcb), (route_poll _ _ _ Hpoll).
  rewrite (redirect_run callback env w code writeKey readKey up tokens); auto.
  do 2 eexists; split; [reflexivity|]; split; [reflexivity|].
  apply poll_run_miss; [exact Hkey | apply Hup |].
  unfold live; simpl; rewrite lookup_insert_eq; simpl.
  assert (Hdead : (clock w + seconds <? clock w + 300) = false)
    by (apply Nat.ltb_ge; lia).
  rewrite Hdead; reflexivity.
Qed.

(** X10. A ticket lasts 60 seconds: a callback that comes 60 seconds or more
    after the initiation, with the state it gave out and a code the provider
    accepts, answers 400 and stores nothing, the provider having been
    contacted. *)
Theorem ticket_expires
    (initiate callback : Request) (env : Env) (w : World) (endpoint : Url)
    (code : string) (up : Upstream) (seconds : nat) :
  let writeKey := idSource w (S (idsDrawn w)) in
  routed "POST" "/auth/authorize" initiate = true ->
  URL_new (AUTHORIZE_ENDPOINT env) = Return endpoint ->
  store_up w ->
  routed "GET" "/auth/redirect" callback = true ->
  given "code" callback code -> given "state" callback writeKey ->
  network w (exchange env (code_proof env code)) = Return up ->
  up_status up = 200 ->
  60 <= seconds ->
  exists issued w1,
    handleRequest getHTMLTemplate initiate env w = (Return issued, w1) /\
    status issued = 200 /\
    handleRequest getHTMLTemplate callback env (elapse seconds w1)
    = (Return {| status := 400; body := Some "No read key found in storage";
                 headers := [] |},
       record (EvKvGet ("readKey:" +:+ writeKey))
         (record (EvFetch (exchange env (code_proof env code)))
            (elapse seconds w1))).
Proof.
  intros writeKey Hinit Hurl Hup Hcb Hcode Hstate Hnet Hok Hlate.
  rewrite (route_authorize _ _ _ Hinit), (route_redirect _ _ _ Hcb).
  destruct (authorize_run env w endpoint Hurl (Hup _)) as [issued [Hrun Hs]].
  rewrite Hrun; do 2 eexists; split; [reflexivity|]; split; [exact Hs|].
  unfold given in *.
  unfold redirect, bind, net_fetch, kv_get, lift, ret.
  rewrite Hcode, Hstate; fold (code_proof env code); simpl.
  rewrite Hnet, Hok; simpl; rewrite Hup.
  unfold live; simpl; fold writeKey; rewrite lookup_insert_eq; simpl.
  assert (Hdead : (clock w + seconds <? clock w + 60) = false)
    by (apply Nat.ltb_ge; lia).
  rewrite Hdead; reflexivity.
Qed.

(** X11. The whole flow. An initiation hands out a read key and a state; the
    callback with that state less than 60 seconds later, with a code the
    provider accepts, stores the bundle; the poll with that read key less
    than 300 seconds after the callback returns the bundle and leaves no
    entry for it. *)
Theorem initiate_callback_poll
    (initiate callback polling : Request) (env : Env) (w : World)
    (endpoint : Url) (code : string) (up : Upstream) (tokens : JsValue)
    (d1 d2 : nat) :
  let readKey := idSource w (idsDrawn w) in
  let writeKey := idSource w (S (idsDrawn w)) in
  routed "POST" "/auth/authorize" initiate = true ->
  URL_new (AUTHORIZE_ENDPOINT env) = Return endpoint ->
  store_up w ->
  readKey <> "" ->
  routed "GET" "/auth/redirect" callback = true ->
  given "code" callback code -> given "state" callback writeKey ->
  d1 < 60 ->
  network w (exchange env (code_proof env code)) = Return up ->
  up_status up = 200 ->
  Response_json (up_body up) = Return tokens ->
  JSON_stringify tokens <> "" ->
  routed "POST" "/auth/poll" polling = true ->
  given "readKey" polling readKey ->
  d2 < 300 ->
  exists issued w1 confirmation w2 w3,
    handleRequest getHTMLTemplate initiate env w = (Return issued, w1) /\
    status issued = 200 /\
    handleRequest getHTMLTemplate callback env (elapse d1 w1)
    = (Return confirmation, w2) /\
    status confirmation = 200 /\
    handleRequest getHTMLTemplate polling env (elapse d2 w2)
    = (Return {| status := 200; body := Some (JSON_stringify tokens);
                 headers := [("Content-Type", "application/json"); cors env] |},
       w3) /\
    kv w3 !! ("tokens:" +:+ readKey) = None.
Proof.
  intros readKey writeKey Hinit Hurl Hup Hrk Hcb Hcode Hstate Hd1
         Hnet Hok Hjson Hne Hpoll Hkey Hd2.
  rewrite (route_authorize _ _ _ Hinit), (route_redirect _ _ _ Hcb),
          (route_poll _ _ _ Hpoll).
  destruct (authorize_run env w endpoint Hurl (Hup _)) as [issued [Hrun Hs]].
  fold readKey writeKey in Hrun; rewrite Hrun.
  exists issued; eexists; do 3 eexists.
  split; [reflexivity|]; split; [exact Hs|].
  split.
  { apply (redirect_run callback env _ code writeKey readKey up tokens);
      auto; try apply Hup.
    unfold live; simpl; rewrite lookup_insert_eq; simpl.
    assert (Hlive : (clock w + d1 <? clock w + 60) = true)
      by (apply Nat.ltb_lt; lia).
    rewrite Hlive; apply truthy_present, Hrk. }
  split; [reflexivity|]; split.
  { apply (poll_run_hit polling env _ readKey (JSON_stringify tokens));
      auto; try apply Hup.
    unfold live; simpl; rewrite lookup_insert_eq; simpl.
    assert (Hlive : (clock w + d1 + d2 <? clock w + d1 + 300) = true)
      by (apply Nat.ltb_lt; lia).
    rewrite Hlive; apply truthy_present, Hne. }
  simpl; apply lookup_delete_eq.
Qed.

(** X12. The callback does not use the ticket up. After a callback that
    stored a bundle the ticket is as it was, and a second callback with the
    same state, while the ticket lasts, is served like the first: it posts
    its own code to the provider and its bundle replaces the stored one,
    for 300 seconds from then. *)
Theorem callback_replay_overwrites
    (first second : Request) (env : Env) (w : World)
    (code1 code2 writeKey readKey : string)
    (up1 up2 : Upstream) (tokens1 tokens2 : JsValue) (seconds : nat) :
  routed "GET" "/auth/redirect" first = true ->
  given "code" first code1 -> given "state" first writeKey ->
  routed "GET" "/auth/redirect" second = true ->
  given "code" second code2 -> given "state" second writeKey ->
  store_up w ->
  truthy (live (elapse seconds w) ("readKey:" +:+ writeKey)) = Some readKey ->
  network w (exchange env (code_proof env code1)) = Return up1 ->
  up_status up1 = 200 -> Response_json (up_body up1) = Return tokens1 ->
  network w (exchange env (code_proof env code2)) = Return up2 ->
  up_status up2 = 200 -> Response_json (up_body up2) = Return tokens2 ->
  exists r1 w1 r2 w2,
    handleRequest getHTMLTemplate first env w = (Return r1, w1) /\
    status r1 = 200 /\
    kv w1 !! ("readKey:" +:+ writeKey) = kv w !! ("readKey:" +:+ writeKey) /\
    handleRequest getHTMLTemplate second env (elapse seconds w1)
    = (Return r2, w2) /\
    status r2 = 200 /\
    kv w2 !! ("tokens:" +:+ readKey)
    = Some {| entry_value := JSON_stringify tokens2;
              entry_expires := clock w + seconds + 300 |}.
Proof.
  intros Hr1 Hc1 Hs1 Hr2 Hc2 Hs2 Hup Hlater Hn1 Hok1 Hj1 Hn2 Hok2 Hj2.
  rewrite (route_redirect _ _ _ Hr1), (route_redirect _ _ _ Hr2).
  assert (Hnow : truthy (live w ("readKey:" +:+ writeKey)) = Some readKey).
  { apply truthy_inv in Hlater as [Hlive Hne].
    rewrite (live_earlier _ _ _ _ Hlive); apply truthy_present, Hne. }
  rewrite (redirect_run first env w code1 writeKey readKey up1 tokens1); auto.
  do 4 eexists; split; [reflexivity|]; split; [reflexivity|].
  split; [simpl; apply lookup_insert_ne; apply not_eq_sym, key_spaces_apart|].
  split.
  { apply (redirect_run second env _ code2 writeKey readKey up2 tokens2);
      auto; try apply Hup.
    revert Hlater; unfold live; simpl.
    rewrite lookup_insert_ne by (apply not_eq_sym, key_spaces_apart); auto. }
  split; [reflexivity|].
  simpl; apply lookup_insert_eq.
Qed.

(** X13. When the fetch of the token endpoint itself throws [e] (the provider
    cannot be reached), the callback and the refresh answer with the 500 of
    the catch-all for [e]; the store is not asked, the ticket not looked
    up. *)
Theorem network_failure_is_500
    (request : Request) (env : Env) (w : World) (e : Thrown) :
  (forall code writeKey,
     routed "GET" "/auth/redirect" request = true ->
     given "code" request code -> given "state" request writeKey ->
     network w (exchange env (code_proof env code)) = Throw e ->
     fetch getHTMLTemplate request env w
     = (Return (internal_error e env),
        record (EvFetch (exchange env (code_proof env code))) w)) /\
  (forall token,
     routed "POST" "/auth/refresh" request = true ->
     given "code" request token ->
     network w (exchange env (refresh_proof env token)) = Throw e ->
     fetch getHTMLTemplate request env w
     = (Return (internal_error e env),
        record (EvFetch (exchange env (refresh_proof env token))) w)) /\
  status (internal_error e env) = 500 /\
  allow_origin (internal_error e env) = Some (PLUGIN_URI env).
Proof.
  unfold given, fetch; split; [|split; [|split; reflexivity]].
  - intros code writeKey Hr Hcode Hstate Hnet.
    rewrite (route_redirect _ _ _ Hr).
    unfold redirect, bind, net_fetch; rewrite Hcode, Hstate.
    fold (code_proof env code); rewrite Hnet; reflexivity.
  - intros token Hr Hcode Hnet.
    rewrite (route_refresh _ _ _ Hr).
    unfold refresh, bind, net_fetch; rewrite Hcode.
    fold (refresh_proof env token); rewrite Hnet; reflexivity.
Qed.

(** X14. Success is announced only after the store was written. An
    initiation that returns a response has stored the ticket of the read key
    it hands out; a callback that answers 200 was given a state whose ticket
    held a read key, got a 200 with a body that parses from the provider,
    and has stored that body's bundle under that read key for 300
    seconds. *)
Theorem success_means_stored
    (request : Request) (env : Env) (w w' : World) (response : Response) :
  handleRequest getHTMLTemplate request env w = (Return response, w') ->
  (routed "POST" "/auth/authorize" request = true ->
   kv w' !! ("readKey:" +:+ idSource w (S (idsDrawn w)))
   = Some {| entry_value := idSource w (idsDrawn w);
             entry_expires := clock w + 60 |}) /\
  (routed "GET" "/auth/redirect" request = true -> status response = 200 ->
   exists code writeKey readKey up tokens,
     given "code" request code /\ given "state" request writeKey /\
     live w ("readKey:" +:+ writeKey) = Some readKey /\
     network w (exchange env (code_proof env code)) = Return up /\
     up_status up = 200 /\
     Response_json (up_body up) = Return tokens /\
     kv w' !! ("tokens:" +:+ readKey)
     = Some {| entry_value := JSON_stringify tokens;
               entry_expires := clock w + 300 |}).
Proof.
  intros Hrun; split; intros Hr.
  - revert Hrun; rewrite (route_authorize _ _ _ Hr).
    unfold authorize, bind, generateRandomId, lift, kv_put, ret.
    destruct (URL_new _); simpl; [|discriminate].
    destruct (kvFault _ _); simpl; [discriminate|].
    intros [= <- <-]; simpl; apply lookup_insert_eq.
  - revert Hrun; rewrite (route_redirect _ _ _ Hr); unfold given.
    unfold redirect, bind, net_fetch, kv_get, kv_put, lift, ret.
    destruct (truthy (searchParams_get "code" _)) as [code|];
      [|intros [= <- <-]; discriminate].
    destruct (truthy (searchParams_get "state" _)) as [writeKey|];
      [|intros [= <- <-]; discriminate].
    fold (code_proof env code).
    destruct (network w _) as [up|e] eqn:Hnet; simpl; [|discriminate].
    destruct (up_status up =? 200) eqn:Hok; simpl;
      [|unfold new_Response; destruct (Response_accepts _ _);
        [|discriminate];
        intros [= <- <-]; simpl; intros Hs;
        apply Nat.eqb_neq in Hok; contradiction].
    apply Nat.eqb_eq in Hok.
    destruct (kvFault w (EvKvGet _)); simpl; [discriminate|].
    destruct (truthy (live _ _)) as [readKey|] eqn:Hlive; simpl;
      [|intros [= <- <-]; discriminate].
    apply truthy_live in Hlive.
    destruct (Response_json _) as [tokens|e] eqn:Hjson; simpl; [|discriminate].
    destruct (kvFault w (EvKvPut _ _ _)); simpl; [discriminate|].
    intros [= <- <-] _; exists code, writeKey, readKey, up, tokens.
    repeat split; auto; simpl; apply lookup_insert_eq.
Qed.

(** X15. The worker makes up no bundle: a refresh that answers 200 was given
    a refresh token, the provider answered its form with 200 and a body that
    parses, and the response body is that parsed body serialised. *)
Theorem refresh_200_is_the_providers
    (request : Request) (env : Env) (w w' : World) (response : Response) :
  routed "POST" "/auth/refresh" request = true ->
  handleRequest getHTMLTemplate request env w = (Return response, w') ->
  status response = 200 ->
  exists token up tokens,
    given "code" request token /\
    network w (exchange env (refresh_proof env token)) = Return up /\
    up_status up = 200 /\
    Response_json (up_body up) = Return tokens /\
    body response = Some (JSON_stringify tokens).
Proof.
  intros Hr; rewrite (route_refresh _ _ _ Hr); unfold given.
  unfold refresh, bind, net_fetch, lift, ret.
  destruct (truthy _) as [token|]; [|intros [= <- <-]; discriminate].
  fold (refresh_proof env token).
  destruct (network w _) as [up|e] eqn:Hnet; simpl; [|discriminate].
  destruct (up_status up =? 200) eqn:Hok; simpl;
    [|unfold new_Response; destruct (Response_accepts _ _);
      [|discriminate];
      intros [= <- <-]; simpl; intros Hs;
      apply Nat.eqb_neq in Hok; contradiction].
  apply Nat.eqb_eq in Hok.
  destruct (Response_json _) as [tokens|e] eqn:Hjson; simpl; [|discriminate].
  intros [= <- <-] _; exists token, up, tokens; auto.
Qed.

(** X16. When the provider answers with a status other than 200 that a
    response with a body cannot be built with (204, 205, 304, or a status
    outside 200 to 599), new Response throws: the callback and the refresh
    answer with the 500 of the catch-all, with the allow-origin header,
    instead of the provider's status; the fetch was the only effect. *)
Theorem refused_status_is_500
    (request : Request) (env : Env) (w : World) (up : Upstream) :
  up_status up <> 200 ->
  Response_accepts (up_status up) (Some (up_statusText up)) = false ->
  let thrown := ErrorInstance (Response_rejection (up_status up)) in
  (forall code writeKey,
     routed "GET" "/auth/redirect" request = true ->
     given "code" request code -> given "state" request writeKey ->
     network w (exchange env (code_proof env code)) = Return up ->
     fetch getHTMLTemplate request env w
     = (Return (internal_error thrown env),
        record (EvFetch (exchange env (code_proof env code))) w)) /\
  (forall token,
     routed "POST" "/auth/refresh" request = true ->
     given "code" request token ->
     network w (exchange env (refresh_proof env token)) = Return up ->
     fetch getHTMLTemplate request env w
     = (Return (internal_error thrown env),
        record (EvFetch (exchange env (refresh_proof env token))) w)) /\
  status (internal_error thrown env) = 500 /\
  allow_origin (internal_error thrown env) = Some (PLUGIN_URI env).
Proof.
  intros Hs Hrefused thrown; apply Nat.eqb_neq in Hs.
  unfold given, fetch; split; [|split; [|split; reflexivity]].
  - intros code writeKey Hr Hcode Hstate Hnet.
    rewrite (route_redirect _ _ _ Hr).
    unfold redirect, bind, net_fetch, lift, new_Response.
    rewrite Hcode, Hstate; fold (code_proof env code).
    rewrite Hnet, Hs; simpl; rewrite Hrefused; reflexivity.
  - intros token Hr Hcode Hnet.
    rewrite (route_refresh _ _ _ Hr).
    unfold refresh, bind, net_fetch, lift, new_Response.
    rewrite Hcode; fold (refresh_proof env token).
    rewrite Hnet, Hs; simpl; rewrite Hrefused; reflexivity.
Qed.

End Runs.

(** ** The further theorems at work on the sample worlds *)

Lemma refresh_returns_bundle_witness :
  let request := POST "/auth/refresh" [("code", "rt")] in
  let w := sample_world bundle_R1 granted in
  handleRequest sample_template request sample_env w
  = (Return {| status := 200; body := Some sample_bundle;
               headers := [("Content-Type", "application/json");
                           cors sample_env] |},
     record (EvFetch (exchange sample_env (refresh_proof sample_env "rt"))) w).
Proof.
  intros request w.
  apply (@refresh_returns_bundle sample_platform sample_template request
           sample_env w "rt"
           {| up_status := 200; up_statusText := "OK";
              up_body := sample_bundle |}
           sample_bundle); reflexivity.
Defined.

Lemma unparsable_answer_is_500_witness :
  let renewal := POST "/auth/refresh" [("code", "rt")] in
  let callback := GET "/auth/redirect" [("code", "abc"); ("state", "W1")] in
  let w := sample_world ticket_W1 unparsable in
  let e := ErrorInstance "Unexpected token in JSON" in
  fetch sample_template renewal sample_env w
  = (Return (internal_error e sample_env),
     record (EvFetch (exchange sample_env (refresh_proof sample_env "rt"))) w) /\
  fetch sample_template callback sample_env w
  = (Return (internal_error e sample_env),
     record (EvKvGet "readKey:W1")
       (record (EvFetch (exchange sample_env (code_proof sample_env "abc")))
          w)).
Proof.
  intros renewal callback w e.
  pose (up := {| up_status := 200; up_statusText := "OK";
                 up_body := "<html>" |}).
  assert (Hok : up_status up = 200) by reflexivity.
  assert (Hjson : Response_json (up_body up) = Throw e) by reflexivity.
  split.
  - apply (proj1 (unparsable_answer_is_500 sample_template renewal sample_env
                    w up e Hok Hjson) "rt"); reflexivity.
  - apply (proj1 (proj2 (unparsable_answer_is_500 sample_template callback
                           sample_env w up e Hok Hjson))
             "abc" "W1" "R1"); reflexivity.
Defined.

Lemma authorize_bad_endpoint_witness :
  let request := POST "/auth/authorize" [] in
  let w := sample_world ∅ granted in
  exists w',
    fetch sample_template request bad_endpoint_env w
    = (Return (internal_error (ErrorInstance "Invalid URL") bad_endpoint_env),
       w') /\
    kv w' = kv w /\ trace w' = trace w /\ idsDrawn w' = idsDrawn w + 2.
Proof.
  intros request w.
  apply (authorize_bad_endpoint sample_template request bad_endpoint_env w);
    reflexivity.
Defined.

Lemma poll_failed_delete_keeps_bundle_witness :
  let request := POST "/auth/poll" [("readKey", "R1")] in
  let e := ErrorInstance "KV DELETE failed" in
  let w := failing_delete "tokens:R1" e (sample_world bundle_R1 granted) in
  exists w',
    fetch sample_template request sample_env w
    = (Return (internal_error e sample_env), w') /\
    kv w' = kv w /\
    fst (handleRequest sample_template request sample_env
           (sample_world bundle_R1 granted))
    = Return {| status := 200; body := Some sample_bundle;
                headers := [("Content-Type", "application/json");
                            cors sample_env] |}.
Proof.
  intros request e w.
  destruct (poll_failed_delete_keeps_bundle sample_template request sample_env
              w "R1" sample_bundle e)
    as (w' & _ & Hfetch & Hkv & _ & Hlater);
    [reflexivity | reflexivity | reflexivity | reflexivity | reflexivity |].
  exists w'; split; [exact Hfetch|]; split; [exact Hkv|].
  apply Hlater; [rewrite Hkv; reflexivity | reflexivity |].
  intros ev; reflexivity.
Defined.

Lemma verbs_are_enforced_witness :
  let w := sample_world bundle_R1 granted in
  let not_found :=
    (Return {| status := 404; body := Some "Page not found";
               headers := [cors sample_env] |}, w) in
  handleRequest sample_template
    {| method := "OPTIONS"; pathname := "/auth/poll";
       searchParams := [("readKey", "R1")] |} sample_env w = not_found /\
  handleRequest sample_template (GET "/auth/poll" [("readKey", "R1")])
    sample_env w = not_found /\
  handleRequest sample_template (POST "/auth/redirect" [("code", "abc")])
    sample_env w = not_found.
Proof.
  intros w not_found; split; [|split].
  - apply (proj1 (verbs_are_enforced sample_template
                    {| method := "OPTIONS"; pathname := "/auth/poll";
                       searchParams := [("readKey", "R1")] |} sample_env w));
      simpl; discriminate.
  - apply (proj1 (proj2 (verbs_are_enforced sample_template
                           (GET "/auth/poll" [("readKey", "R1")])
                           sample_env w)));
      [reflexivity | reflexivity | simpl; discriminate].
  - apply (proj2 (proj2 (verbs_are_enforced sample_template
                           (POST "/auth/redirect" [("code", "abc")])
                           sample_env w))); reflexivity.
Defined.

Lemma store_footprint_witness :
  let request := POST "/auth/poll" [("readKey", "R1")] in
  (routed "POST" "/auth/authorize" request = true /\
   "tokens:R1" = "readKey:" +:+ "W1") \/
  (routed "GET" "/auth/redirect" request = true /\
   in_bundles "tokens:R1" = true) \/
  (routed "POST" "/auth/poll" request = true /\
   exists readKey, given "readKey" request readKey /\
                   "tokens:R1" = "tokens:" +:+ readKey).
Proof.
  intros request.
  apply (store_footprint sample_template request sample_env
           (sample_world bundle_R1 granted) "tokens:R1").
  vm_compute; discriminate.
Defined.


Lemma bundle_expires_witness :
  let callback := GET "/auth/redirect" [("code", "abc"); ("state", "W1")] in
  let polling := POST "/auth/poll" [("readKey", "R1")] in
  let w := sample_world ticket_W1 granted in
  exists confirmation w1,
    handleRequest sample_template callback sample_env w
    = (Return confirmation, w1) /\
    status confirmation = 200 /\
    handleRequest sample_template polling sample_env (elapse 300 w1)
    = (Return {| status := 404; body := None; headers := [cors sample_env] |},
       record (EvKvGet "tokens:R1") (elapse 300 w1)).
Proof.
  intros callback polling w.
  apply (@bundle_expires sample_platform sample_template callback polling
           sample_env w "abc" "W1" "R1"
           {| up_status := 200; up_statusText := "OK";
              up_body := sample_bundle |}
           sample_bundle 300);
    try reflexivity; try (intros ev; reflexivity); try lia;
    try (simpl; discriminate).
Defined.

Lemma ticket_expires_witness :
  let initiate := POST "/auth/authorize" [] in
  let callback := GET "/auth/redirect" [("code", "abc"); ("state", "W1")] in
  let w := sample_world ∅ granted in
  exists issued w1,
    handleRequest sample_template initiate sample_env w = (Return issued, w1) /\
    status issued = 200 /\
    handleRequest sample_template callback sample_env (elapse 60 w1)
    = (Return {| status := 400; body := Some "No read key found in storage";
                 headers := [] |},
       record (EvKvGet "readKey:W1")
         (record (EvFetch (exchange sample_env (code_proof sample_env "abc")))
            (elapse 60 w1))).
Proof.
  intros initiate callback w.
  apply (@ticket_expires sample_platform sample_template initiate callback
           sample_env w ("https://provider.example/oauth/authorize", "")
           "abc"
           {| up_status := 200; up_statusText := "OK";
              up_body := sample_bundle |} 60);
    try reflexivity; try (intros ev; reflexivity); try lia;
    try (simpl; discriminate).
Defined.

Lemma initiate_callback_poll_witness :
  let initiate := POST "/auth/authorize" [] in
  let callback := GET "/auth/redirect" [("code", "abc"); ("state", "W1")] in
  let polling := POST "/auth/poll" [("readKey", "R1")] in
  let w := sample_world ∅ granted in
  exists issued w1 confirmation w2 w3,
    handleRequest sample_template initiate sample_env w = (Return issued, w1) /\
    status issued = 200 /\
    handleRequest sample_template callback sample_env (elapse 30 w1)
    = (Return confirmation, w2) /\
    status confirmation = 200 /\
    handleRequest sample_template polling sample_env (elapse 100 w2)
    = (Return {| status := 200; body := Some sample_bundle;
                 headers := [("Content-Type", "application/json");
                             cors sample_env] |}, w3) /\
    kv w3 !! "tokens:R1" = None.
Proof.
  intros initiate callback polling w.
  apply (@initiate_callback_poll sample_platform sample_template
           initiate callback polling sample_env w
           ("https://provider.example/oauth/authorize", "") "abc"
           {| up_status := 200; up_statusText := "OK";
              up_body := sample_bundle |}
           sample_bundle 30 100);
    try reflexivity; try (intros ev; reflexivity); try lia;
    try (simpl; discriminate).
Defined.

Lemma callback_replay_overwrites_witness :
  let first := GET "/auth/redirect" [("code", "abc"); ("state", "W1")] in
  let second := GET "/auth/redirect" [("code", "xyz"); ("state", "W1")] in
  let w := sample_world_by_code ticket_W1 in
  exists r1 w1 r2 w2,
    handleRequest sample_template first sample_env w = (Return r1, w1) /\
    status r1 = 200 /\
    kv w1 !! "readKey:W1" = kv w !! "readKey:W1" /\
    handleRequest sample_template second sample_env (elapse 20 w1)
    = (Return r2, w2) /\
    status r2 = 200 /\
    kv w2 !! "tokens:R1"
    = Some {| entry_value := sample_bundle2;
              entry_expires := 1320 |}.
Proof.
  intros first second w.
  apply (@callback_replay_overwrites sample_platform sample_template
           first second sample_env w "abc" "xyz" "W1" "R1"
           {| up_status := 200; up_statusText := "OK";
              up_body := sample_bundle |}
           {| up_status := 200; up_statusText := "OK";
              up_body := sample_bundle2 |}
           sample_bundle sample_bundle2 20);
    try reflexivity; try (intros ev; reflexivity); try lia;
    try (simpl; discriminate).
Defined.

Lemma network_failure_is_500_witness :
  let callback := GET "/auth/redirect" [("code", "abc"); ("state", "W1")] in
  let renewal := POST "/auth/refresh" [("code", "rt")] in
  let w := sample_world ticket_W1 unreachable in
  let e := ErrorInstance "Network connection lost." in
  fetch sample_template callback sample_env w
  = (Return (internal_error e sample_env),
     record (EvFetch (exchange sample_env (code_proof sample_env "abc"))) w) /\
  fetch sample_template renewal sample_env w
  = (Return (internal_error e sample_env),
     record (EvFetch (exchange sample_env (refresh_proof sample_env "rt"))) w).
Proof.
  intros callback renewal w e; split.
  - apply (proj1 (network_failure_is_500 sample_template callback sample_env
                    w e) "abc" "W1"); reflexivity.
  - apply (proj1 (proj2 (network_failure_is_500 sample_template renewal
                           sample_env w e)) "rt"); reflexivity.
Defined.

Lemma success_means_stored_witness :
  let initiate := POST "/auth/authorize" [] in
  let callback := GET "/auth/redirect" [("code", "abc"); ("state", "W1")] in
  (exists issued w',
     handleRequest sample_template initiate sample_env (sample_world ∅ granted)
     = (Return issued, w') /\
     kv w' !! "readKey:W1"
     = Some {| entry_value := "R1"; entry_expires := 1060 |}) /\
  (exists confirmation w',
     handleRequest sample_template callback sample_env
       (sample_world ticket_W1 granted)
     = (Return confirmation, w') /\
     exists code writeKey readKey up tokens,
       given "code" callback code /\ given "state" callback writeKey /\
       live (sample_world ticket_W1 granted) ("readKey:" +:+ writeKey)
       = Some readKey /\
       network (sample_world ticket_W1 granted)
         (exchange sample_env (code_proof sample_env code)) = Return up /\
       up_status up = 200 /\
       Response_json (up_body up) = Return tokens /\
       kv w' !! ("tokens:" +:+ readKey)
       = Some {| entry_value := JSON_stringify tokens;
                 entry_expires := 1300 |}).
Proof.
  intros initiate callback; split.
  - destruct (handleRequest sample_template initiate sample_env
                (sample_world ∅ granted)) as [[issued|e] w'] eqn:Hrun;
      [|vm_compute in Hrun; discriminate].
    exists issued, w'; split; [reflexivity|].
    apply (proj1 (success_means_stored sample_template initiate sample_env
                    _ w' issued Hrun)); reflexivity.
  - destruct (handleRequest sample_template callback sample_env
                (sample_world ticket_W1 granted))
      as [[confirmation|e] w'] eqn:Hrun;
      [|vm_compute in Hrun; discriminate].
    exists confirmation, w'; split; [reflexivity|].
    apply (proj2 (success_means_stored sample_template callback sample_env
                    _ w' confirmation Hrun)); [reflexivity|].
    vm_compute in Hrun; injection Hrun as <- _; reflexivity.
Defined.

Lemma refresh_200_is_the_providers_witness :
  let request := POST "/auth/refresh" [("code", "rt")] in
  let w := sample_world bundle_R1 granted in
  exists token up tokens,
    given "code" request token /\
    network w (exchange sample_env (refresh_proof sample_env token))
    = Return up /\
    up_status up = 200 /\
    Response_json (up_body up) = Return tokens /\
    Some sample_bundle = Some (JSON_stringify tokens).
Proof.
  intros request w.
  apply (refresh_200_is_the_providers sample_template request sample_env w
           (snd (handleRequest sample_template request sample_env w))
           {| status := 200; body := Some sample_bundle;
              headers := [("Content-Type", "application/json");
                          cors sample_env] |});
    [reflexivity | vm_compute; reflexivity | reflexivity].
Defined.

Lemma refused_status_is_500_witness :
  let callback := GET "/auth/redirect" [("code", "abc"); ("state", "W1")] in
  let renewal := POST "/auth/refresh" [("code", "rt")] in
  let w := sample_world ticket_W1 no_content in
  let thrown := ErrorInstance (Response_rejection 204) in
  fetch sample_template callback sample_env w
  = (Return (internal_error thrown sample_env),
     record (EvFetch (exchange sample_env (code_proof sample_env "abc"))) w) /\
  fetch sample_template renewal sample_env w
  = (Return (internal_error thrown sample_env),
     record (EvFetch (exchange sample_env (refresh_proof sample_env "rt"))) w).
Proof.
  intros callback renewal w thrown.
  pose (up := {| up_status := 204; up_statusText := "No Content";
                 up_body := "" |}).
  assert (Hs : up_status up <> 200) by (simpl; lia).
  assert (Hr : Response_accepts (up_status up) (Some (up_statusText up))
               = false) by reflexivity.
  split.
  - apply (proj1 (refused_status_is_500 sample_template callback sample_env
                    w up Hs Hr) "abc" "W1"); reflexivity.
  - apply (proj1 (proj2 (refused_status_is_500 sample_template renewal
                           sample_env w up Hs Hr)) "rt"); reflexivity.
Defined.
